(** * AgentOC email-processing core: a shallow embedding

    This development follows the Python sources of the email pipeline:
    - [src/db/memory.py]            client directory, email history, Gmail state;
    - [src/agents/reply_templates.py] templates and [process_classified_email];
    - [src/agents/email_agent.py]   [_find_value] and classification normalization;
    - [src/tools/gmail_poller.py]   the poll cycle.

    Strings are Stdlib [string]s; the SQL tables are lists of records, with
    [filter_by(...).first()] as the first matching row.  Python floats are kept
    abstract (class [PyFloat]): the claims only depend on how the code uses
    [float()], [>], the arithmetic and [:.2f], not on IEEE rounding. *)

From Stdlib Require Import String Ascii List ZArith Bool Lia Sorted Permutation.
From Stdlib Require Import QArith.
Import ListNotations.
Open Scope string_scope.
Open Scope Z_scope.

(* ------------------------------------------------------------------ *)
(** ** Python string primitives *)

Module PyStr.

Definition nl : string := String (ascii_of_nat 10) EmptyString.

(** [starts_with p s]: [s.startswith(p)]. *)
Fixpoint starts_with (p s : string) : bool :=
  match p, s with
  | EmptyString, _ => true
  | String a p', String b s' => if Ascii.eqb a b then starts_with p' s' else false
  | String _ _, EmptyString => false
  end.

(** [replace_from pat r k s]: the scan of [s.replace(pat, r)] where the next
    [k] characters belong to an occurrence already replaced.  Python's scan is
    left to right and non-overlapping. *)
Fixpoint replace_from (pat r : string) (k : nat) (s : string) : string :=
  match s with
  | EmptyString => EmptyString
  | String c s' =>
      match k with
      | S k' => replace_from pat r k' s'
      | O => if starts_with pat s
             then r ++ replace_from pat r (Nat.pred (String.length pat)) s'
             else String c (replace_from pat r O s')
      end
  end.

(** [s.replace(pat, r)] for a non-empty [pat] (every call site in the
    sources uses a non-empty pattern). *)
Definition replace (pat r s : string) : string := replace_from pat r O s.

(** [sub in s] *)
Fixpoint contains (sub s : string) : bool :=
  match s with
  | EmptyString => starts_with sub s
  | String _ s' => starts_with sub s || contains sub s'
  end.

Definition lower_char (c : ascii) : ascii :=
  let n := nat_of_ascii c in
  if (65 <=? n)%nat && (n <=? 90)%nat then ascii_of_nat (n + 32) else c.

Fixpoint lower (s : string) : string :=
  match s with
  | EmptyString => EmptyString
  | String c s' => String (lower_char c) (lower s')
  end.

(** The ASCII characters for which [str.isspace] holds. *)
Definition is_space (c : ascii) : bool :=
  let n := nat_of_ascii c in
  ((9 <=? n)%nat && (n <=? 13)%nat) || ((28 <=? n)%nat && (n <=? 32)%nat).

Fixpoint lstrip (s : string) : string :=
  match s with
  | EmptyString => EmptyString
  | String c s' => if is_space c then lstrip s' else s
  end.

Fixpoint rev_str (s acc : string) : string :=
  match s with
  | EmptyString => acc
  | String c s' => rev_str s' (String c acc)
  end.

Definition strip (s : string) : string :=
  rev_str (lstrip (rev_str (lstrip s) EmptyString)) EmptyString.

Definition digit (n : N) : string := String (ascii_of_N (48 + n)) EmptyString.

Fixpoint n_digits (fuel : nat) (n : N) : string :=
  match fuel with
  | O => EmptyString
  | S f =>
      let q := N.div n 10 in
      (if (q =? 0)%N then EmptyString else n_digits f q) ++ digit (N.modulo n 10)
  end.

(** [str(z)] for a Python int. *)
Definition z_to_string (z : Z) : string :=
  let s := n_digits (S (N.size_nat (Z.abs_N z))) (Z.abs_N z) in
  if z <? 0 then "-" ++ s else s.

End PyStr.

Import PyStr.

(* ------------------------------------------------------------------ *)
(** ** Client directory ([db/models.py] Client, [db/memory.py]) *)

(** [Client.to_dict()]: the nullable columns are read through [or ""] /
    [or 0], so the dict always carries a string and an int. *)
Record client := mkClient {
  email : string;
  name : string;
  payment_type : string;
  zelle_address : string;
  discount_percent : Z;
  discount_orders_left : Z
}.

Definition clients := list client.

Definition norm_email (e : string) : string := strip (lower e).

(** [get_client]: [filter_by(email=email.lower().strip()).first()]. *)
Definition get_client (db : clients) (e : string) : option client :=
  find (fun c => String.eqb (email c) (norm_email e)) db.

(** Update the first row that satisfies [p] (what [.first()] then a
    mutation and [commit()] do). *)
Fixpoint update_first (p : client -> bool) (f : client -> client) (db : clients)
  : clients :=
  match db with
  | [] => []
  | c :: db' => if p c then f c :: db' else c :: update_first p f db'
  end.

Definition decrement_row (c : client) : client :=
  if discount_orders_left c >? 0 then
    let left := discount_orders_left c - 1 in
    mkClient (email c) (name c) (payment_type c) (zelle_address c)
             (if left =? 0 then 0 else discount_percent c) left
  else c.

(** [decrement_discount(email)]:
    [if client and client.discount_orders_left and client.discount_orders_left > 0:
       client.discount_orders_left -= 1
       if client.discount_orders_left == 0: client.discount_percent = 0] *)
Definition decrement_discount (db : clients) (e : string) : clients :=
  update_first (fun c => String.eqb (email c) (norm_email e)) decrement_row db.

(* ------------------------------------------------------------------ *)
(** ** Reply templates ([REPLY_TEMPLATES]) *)

Definition template_new_order_prepay : string :=
  "Thank you so much for placing an order" ++ nl ++
  "Your total is {PRICE} - {DISCOUNT}% = {FINAL_PRICE} FREE shipping" ++ nl ++
  nl ++
  "!!! Zelle ( In memo or comments don't put anything please ! ) use email below" ++ nl ++
  nl ++
  "{ZELLE_ADDRESS}" ++ nl ++
  nl ++
  "If paid today, We will ship your order Tonight from USA" ++ nl ++
  "Your order will be delivered in 2-4 days max." ++ nl ++
  "Thank you!".

Definition template_new_order_postpay : string :=
  "Hello!" ++ nl ++
  "Thank you very much for placing an order" ++ nl ++
  "We will ship your package ASAP" ++ nl ++
  "Total is {PRICE} - {DISCOUNT}% = {FINAL_PRICE} FREE shipping applied" ++ nl ++
  "Pay when received as always via Zelle or Cash App" ++ nl ++
  "ZELLE IS OUR PREFERRED METHOD OF PAYMENT" ++ nl ++
  "When order is received and you are ready to pay " ++
  "( In memo or comments don't put anything please ! )" ++ nl ++
  nl ++
  "Here is your confirmation." ++ nl ++
  "Tracking With USPS will be updated on the USPS website " ++
  "till midnight on the day of the shipping" ++ nl ++
  "{TRACKING_URL}" ++ nl ++
  nl ++
  "{CUSTOMER_NAME}" ++ nl ++
  "{CUSTOMER_STREET}" ++ nl ++
  "{CUSTOMER_CITY_STATE_ZIP}".

Definition REPLY_TEMPLATES : list ((string * string) * string) :=
  [ (("new_order", "prepay"), template_new_order_prepay);
    (("new_order", "postpay"), template_new_order_postpay) ].

(** [REPLY_TEMPLATES.get((situation, payment_type))] *)
Fixpoint assoc_get (k : string * string) (t : list ((string * string) * string))
  : option string :=
  match t with
  | [] => None
  | (k', v) :: t' =>
      if String.eqb (fst k) (fst k') && String.eqb (snd k) (snd k')
      then Some v else assoc_get k t'
  end.

Definition template_get (situation pt : string) : option string :=
  assoc_get (situation, pt) REPLY_TEMPLATES.

(* ------------------------------------------------------------------ *)
(** ** Python floats, as the template engine uses them *)

(** [float_of_string] is [float()] ([None] when it raises [ValueError]);
    [f_gt] is [>]; [f_of_int] the int-to-float coercion of [/]; [format_2f]
    is the [:.2f] format spec. *)
Class PyFloat (F : Type) := {
  float_of_string : string -> option F;
  f_zero : F;
  f_gt : F -> F -> bool;
  f_of_int : Z -> F;
  f_mul : F -> F -> F;
  f_sub : F -> F -> F;
  f_div : F -> F -> F;
  format_2f : F -> string
}.

(* ------------------------------------------------------------------ *)
(** ** Classification and processing result *)

Record EmailClassification := mkClassification {
  needs_reply : bool;
  situation : string;
  client_email : string;
  client_name : option string;
  order_id : option string;
  price : option string;
  customer_street : option string;
  customer_city_state_zip : option string;
  items : option string
}.

(** [result["client_data"]]: the client dict, or the
    [{"payment_type": "unknown", "name": "unknown"}] placeholder. *)
Inductive client_data := CDNone | CDUnknown | CDClient (c : client).

Record ProcessResult := mkResult {
  r_needs_reply : bool;
  r_situation : string;
  r_client_email : string;
  r_client_name : option string;
  r_client_found : bool;
  r_client_data : client_data;
  r_template_used : bool;
  r_draft_reply : option string;
  r_needs_ai_fallback : bool
}.

(** Python's [x or d] on an optional string. *)
Definition or_str (x : option string) (d : string) : string :=
  match x with
  | Some s => if String.eqb s "" then d else s
  | None => d
  end.

Section Process.
Context {F : Type} `{PyFloat F}.

(** Lines 158-163: [price_clean = price.replace("$", "").replace(",", "")],
    [price_num = float(price_clean)], [0.0] on [ValueError]. *)
Definition parse_price (p : string) : F :=
  match float_of_string (replace "," "" (replace "$" "" p)) with
  | Some x => x
  | None => f_zero
  end.

(** Lines 165-172: [apply_discount], [final_price], [discount_str]. *)
Definition price_fill (p : string) (discount discount_left : Z)
  : bool * string * string :=
  let price_num := parse_price p in
  let apply_discount :=
    (discount >? 0) && (discount_left >? 0) && f_gt price_num f_zero in
  if apply_discount then
    (true,
     "$" ++ format_2f (f_mul price_num
                         (f_sub (f_of_int 1) (f_div (f_of_int discount) (f_of_int 100)))),
     z_to_string discount)
  else (false, p, "0").

(** Lines 174-187: placeholder substitution and the price-line clean-up. *)
Definition fill_template (template : string) (cls : EmailClassification) (c : client)
  : string :=
  let p := or_str (price cls) "" in
  let '(apply_discount, final_price, discount_str) :=
    price_fill p (discount_percent c) (discount_orders_left c) in
  let reply := template in
  let reply := replace "{PRICE}" p reply in
  let reply := replace "{DISCOUNT}" discount_str reply in
  let reply := replace "{FINAL_PRICE}" final_price reply in
  let reply := replace "{ZELLE_ADDRESS}" (zelle_address c) reply in
  let reply := replace "{CUSTOMER_NAME}" (or_str (client_name cls) (name c)) reply in
  let reply := replace "{CUSTOMER_STREET}" (or_str (customer_street cls) "") reply in
  let reply := replace "{CUSTOMER_CITY_STATE_ZIP}"
                       (or_str (customer_city_state_zip cls) "") reply in
  let reply := replace "{TRACKING_URL}" "[tracking URL pending]" reply in
  if negb apply_discount && negb (String.eqb p "") then
    replace (p ++ " - 0% = " ++ p) p reply
  else reply.

(** [process_classified_email]: the result dict and the client table after
    the call (the only write is [decrement_discount]). *)
Definition process_classified_email (cls : EmailClassification) (db : clients)
  : ProcessResult * clients :=
  if negb (needs_reply cls) then
    (mkResult (needs_reply cls) (situation cls) (client_email cls)
              (client_name cls) false CDNone false (Some "(No reply needed)") false, db)
  else
  match get_client db (client_email cls) with
  | None =>
      (mkResult (needs_reply cls) (situation cls) (client_email cls)
                (client_name cls) false CDUnknown false None true, db)
  | Some c =>
      match template_get (situation cls) (payment_type c) with
      | None =>
          (mkResult (needs_reply cls) (situation cls) (client_email cls)
                    (client_name cls) true (CDClient c) false None true, db)
      | Some template =>
          let p := or_str (price cls) "" in
          let '(apply_discount, _, _) :=
            price_fill p (discount_percent c) (discount_orders_left c) in
          let reply := fill_template template cls c in
          let db' := if apply_discount
                     then decrement_discount db (client_email cls) else db in
          (mkResult (needs_reply cls) (situation cls) (client_email cls)
                    (client_name cls) true (CDClient c) true (Some reply) false, db')
      end
  end.

End Process.

(* ------------------------------------------------------------------ *)
(** ** A decimal instance of [PyFloat], used to run the examples

    Exact rationals; [float()] accepts [digits] and [digits.digits], and
    [:.2f] rounds half up.  Every input used below is such a decimal. *)

Module DecimalFloat.

Definition digit_val (c : ascii) : option Z :=
  let n := nat_of_ascii c in
  if (48 <=? n)%nat && (n <=? 57)%nat then Some (Z.of_nat n - 48) else None.

Fixpoint parse_go (s : string) (num den : Z) (dot digits : bool) : option Q :=
  match s with
  | EmptyString => if digits then Some (num # Z.to_pos den) else None
  | String c s' =>
      if Ascii.eqb c "." then
        if dot then None else parse_go s' num den true digits
      else match digit_val c with
           | Some d => parse_go s' (num * 10 + d) (if dot then den * 10 else den) dot true
           | None => None
           end
  end.

Definition parse_decimal (s : string) : option Q := parse_go s 0 1 false false.

Definition two_digits (z : Z) : string :=
  digit (Z.to_N (z / 10)) ++ digit (Z.to_N (z mod 10)).

Definition format_cents (q : Q) : string :=
  let n := Qnum q in
  let d := Zpos (Qden q) in
  let cents := (2 * Z.abs n * 100 + d) / (2 * d) in
  (if n <? 0 then "-" else "") ++ z_to_string (cents / 100) ++ "." ++ two_digits (cents mod 100).

#[export] Instance QFloat : PyFloat Q := {
  float_of_string := parse_decimal;
  f_zero := 0%Q;
  f_gt := fun x y => negb (Qle_bool x y);
  f_of_int := inject_Z;
  f_mul := Qmult;
  f_sub := Qminus;
  f_div := Qdiv;
  format_2f := format_cents
}.

End DecimalFloat.

Import DecimalFloat.

(* ------------------------------------------------------------------ *)
(** ** Placeholder substitution *)

Module Placeholders.




(** A template seen as literal text and placeholder tokens. *)
Inductive seg := Lit (s : string) | Tok (q : string).




Definition subst (pat r : string) (sg : seg) : seg :=
  match sg with
  | Tok q => if String.eqb q pat then Lit r else Tok q
  | Lit s => Lit s
  end.




End Placeholders.

(* ------------------------------------------------------------------ *)
(** ** Email history ([EmailHistory], [get_email_history]) *)

Module History.

Record EmailHistory := mkHist {
  h_id : nat;
  h_client_email : string;
  h_direction : string;
  h_subject : string;
  h_body : string;
  h_situation : string;
  h_gmail_message_id : option string;
  h_created_at : Z
}.

(** [EmailHistory.to_dict()] *)
Record HistoryDict := mkHistDict {
  d_client_email : string;
  d_direction : string;
  d_subject : string;
  d_body : string;
  d_situation : string;
  d_created_at : Z
}.

Definition to_dict (r : EmailHistory) : HistoryDict :=
  mkHistDict (h_client_email r) (h_direction r) (h_subject r) (h_body r)
             (h_situation r) (h_created_at r).

(** [_PRIORITY_SCORES.get(situation, 1)] *)
Definition priority_score (s : string) : Z :=
  if String.eqb s "new_order" then 3
  else if String.eqb s "discount_request" then 3
  else if String.eqb s "payment_question" then 2
  else if String.eqb s "shipping_timeline" then 2
  else if String.eqb s "other" then 1
  else if String.eqb s "tracking" then 0
  else if String.eqb s "payment_received" then 0
  else 1.

(** A stable sort: [before a b] says [a] may stay in front of [b].  Python's
    [list.sort] (also with [reverse=True]) is stable. *)
Fixpoint insert_by {A} (before : A -> A -> bool) (x : A) (l : list A) : list A :=
  match l with
  | [] => [x]
  | y :: l' => if before x y then x :: y :: l' else y :: insert_by before x l'
  end.

Fixpoint sort_by {A} (before : A -> A -> bool) (l : list A) : list A :=
  match l with
  | [] => []
  | x :: l' => insert_by before x (sort_by before l')
  end.

(** [l[:k]] for a Python int [k] (negative [k] drops from the end). *)
Definition py_slice_upto {A} (l : list A) (k : Z) : list A :=
  if k >=? 0 then firstn (Z.to_nat k) l
  else firstn (Z.to_nat (Z.of_nat (length l) + k)) l.

(** The query [filter_by(client_email=...).order_by(created_at.desc())
    .limit(50)]; rows with equal [created_at] keep table order. *)
Definition history_query (store : list EmailHistory) (client_email : string)
  : list EmailHistory :=
  firstn 50
    (sort_by (fun a b => h_created_at a >=? h_created_at b)
             (filter (fun r => String.eqb (h_client_email r) (norm_email client_email))
                     store)).

(** The rows selected by [get_email_history], before [to_dict]. *)
Definition get_email_history_rows (store : list EmailHistory) (client_email : string)
    (max_total : Z) : list EmailHistory :=
  let rows := history_query store client_email in
  match rows with
  | [] => []
  | _ =>
      let recent := firstn 3 rows in
      let earlier := skipn 3 rows in
      let scored := sort_by (fun a b => priority_score (h_situation a)
                                        >=? priority_score (h_situation b)) earlier in
      let remaining_slots := max_total - Z.of_nat (length recent) in
      let selected_earlier := py_slice_upto scored remaining_slots in
      let combined := (recent ++ selected_earlier)%list in
      sort_by (fun a b => h_created_at a <=? h_created_at b) combined
  end.

Definition get_email_history (store : list EmailHistory) (client_email : string)
    (max_total : Z) : list HistoryDict :=
  map to_dict (get_email_history_rows store client_email max_total).

Definition score (r : EmailHistory) : Z := priority_score (h_situation r).

End History.

(* ------------------------------------------------------------------ *)
(** ** Classification normalization ([email_agent.py], lines 181-229) *)

Module Normalize.

#[local] Set Warnings "-register-all".



















End Normalize.

(* ------------------------------------------------------------------ *)
(** ** Gmail poll cycle ([gmail_poller.py], [db/memory.py] Gmail state) *)

Module Poller.
Import History.

(** [{"msg_id": ..., "history_id": ...}] from [get_new_messages]. *)
Record Candidate := mkCandidate {
  msg_id : string;
  history_id : option string
}.

(** What the body of the per-message [try] does once the message is not a
    duplicate: [get_message] raises; or [classify_and_process] runs (one
    classification call) and either stops in its own [except] before
    [save_email], or completes and saves the inbound record and, when a draft
    exists, the outbound one. *)
Inductive Handling :=
| FetchFails
| PipelineAborts
| PipelineSaves (client_email subject situation body : string) (draft : option string).

Record PollState := mkPollState {
  ps_history : list EmailHistory;
  ps_gmail_state : option string;
  ps_classify_calls : nat
}.

Definition opt_str_eqb (a b : option string) : bool :=
  match a, b with
  | Some x, Some y => String.eqb x y
  | None, None => true
  | _, _ => false
  end.

(** [email_already_processed(gmail_message_id)] *)
Definition email_already_processed (store : list EmailHistory) (m : string) : bool :=
  existsb (fun r => opt_str_eqb (h_gmail_message_id r) (Some m)) store.

(** [save_email]: the [unique=True] column makes a second row with the same
    non-null [gmail_message_id] fail at [commit()]; the error is logged and
    rolled back.  Ids and timestamps are the row number. *)
Definition save_email (store : list EmailHistory) (client_email direction subject body
    situation : string) (gmail_message_id : option string) : list EmailHistory :=
  let n := S (length store) in
  let row := mkHist n (norm_email client_email) direction subject body situation
                    gmail_message_id (Z.of_nat n) in
  match gmail_message_id with
  | Some m => if email_already_processed store m then store else (store ++ [row])%list
  | None => (store ++ [row])%list
  end.

(** Python truthiness of an optional string. *)
Definition truthy_str (s : option string) : bool :=
  match s with Some x => negb (String.eqb x "") | None => false end.

(** One candidate of the [for msg_info in new_messages] loop; returns the
    state, whether it counted as processed, and the new [latest_history_id]. *)
Definition handle_candidate (st : PollState) (latest : string) (c : Candidate)
    (h : Handling) : PollState * bool * string :=
  if email_already_processed (ps_history st) (msg_id c) then (st, false, latest)
  else
    let '(st', processed) :=
      match h with
      | FetchFails => (st, false)
      | PipelineAborts =>
          (mkPollState (ps_history st) (ps_gmail_state st) (S (ps_classify_calls st)), true)
      | PipelineSaves em subj sit body draft =>
          let store1 := save_email (ps_history st) em "inbound" subj body sit
                                   (Some (msg_id c)) in
          let store2 := match draft with
                        | Some d => if String.eqb d "" then store1
                                    else save_email store1 em "outbound"
                                           (if String.eqb subj "" then "" else "Re: " ++ subj)
                                           d sit None
                        | None => store1
                        end in
          (mkPollState store2 (ps_gmail_state st) (S (ps_classify_calls st)), true)
      end in
    (st', processed,
     match history_id c with
     | Some hid => if truthy_str (Some hid) then hid else latest
     | None => latest
     end).

Fixpoint poll_loop (st : PollState) (latest : string) (msgs : list Candidate)
    (outcome : string -> Handling) : PollState * nat * string :=
  match msgs with
  | [] => (st, O, latest)
  | c :: rest =>
      let '(st1, p, latest1) := handle_candidate st latest c (outcome (msg_id c)) in
      let '(st2, n, latest2) := poll_loop st1 latest1 rest outcome in
      (st2, if p then S n else n, latest2)
  end.

Definition set_gmail_state (st : PollState) (hid : string) : PollState :=
  mkPollState (ps_history st) (Some hid) (ps_classify_calls st).

(** [poll_gmail()] with Gmail configured: [current] is
    [get_current_history_id()], [new_messages] what [get_new_messages] returns
    after the stored cursor (an expired cursor gives [[]]), [outcome] what
    happens to each message. *)
Definition poll_gmail (st : PollState) (current : string) (new_messages : list Candidate)
    (outcome : string -> Handling) : PollState * nat :=
  match ps_gmail_state st with
  | None => (set_gmail_state st current, O)
  | Some hid =>
      if String.eqb hid "" then (set_gmail_state st current, O)
      else match new_messages with
           | [] => (st, O)
           | _ =>
               let '(st', processed, latest) := poll_loop st hid new_messages outcome in
               (if String.eqb latest hid then st' else set_gmail_state st' latest, processed)
           end
  end.

(** Inbound rows stored for a Gmail message id. *)
Definition inbound_count (m : string) (store : list EmailHistory) : nat :=
  length (filter (fun r => opt_str_eqb (h_gmail_message_id r) (Some m)
                           && String.eqb (h_direction r) "inbound") store).

End Poller.

(* ------------------------------------------------------------------ *)
(** ** Client directory operations ([db/memory.py], [agents/admin_agent.py]) *)

Module Directory.

Definition valid_payment_type (pt : string) : bool :=
  String.eqb pt "prepay" || String.eqb pt "postpay".

(** [add_client(email, name, payment_type, zelle_address, discount_percent,
    discount_orders_left)]: [inl] is the [ValueError] it raises, [inr] the
    created client dict and the table after [commit()]. *)
Definition add_client (db : clients) (email_in name_in pt zelle : string) (dp dl : Z)
  : string + (client * clients) :=
  if negb (valid_payment_type pt) then
    inl ("payment_type must be 'prepay' or 'postpay', got '" ++ pt ++ "'")
  else if negb ((0 <=? dp) && (dp <=? 100)) then
    inl ("discount_percent must be 0-100, got " ++ z_to_string dp)
  else
    let e := norm_email email_in in
    match find (fun c => String.eqb (email c) e) db with
    | Some _ => inl ("Client " ++ e ++ " already exists")
    | None =>
        let c := mkClient e name_in pt zelle dp dl in
        inr (c, (db ++ [c])%list)
    end.

(** The keyword arguments of [update_client] after
    [{k: v for k, v in fields.items() if k in allowed and v is not None}]:
    one optional value per allowed column. *)
Record UpdateFields := mkFields {
  f_name : option string;
  f_payment_type : option string;
  f_zelle_address : option string;
  f_discount_percent : option Z;
  f_discount_orders_left : option Z
}.

Definition opt_set {A} (o : option A) (x : A) : A :=
  match o with Some v => v | None => x end.

(** [for key, value in fields.items(): setattr(client, key, value)] *)
Definition apply_fields (fs : UpdateFields) (c : client) : client :=
  mkClient (email c) (opt_set (f_name fs) (name c))
           (opt_set (f_payment_type fs) (payment_type c))
           (opt_set (f_zelle_address fs) (zelle_address c))
           (opt_set (f_discount_percent fs) (discount_percent c))
           (opt_set (f_discount_orders_left fs) (discount_orders_left c)).

(** [update_client(email, **fields)]: [inl] is the [ValueError], [inr] the
    returned dict ([None] when no client matches) and the table. *)
Definition update_client (db : clients) (email_in : string) (fs : UpdateFields)
  : string + (option client * clients) :=
  let e := norm_email email_in in
  let bad := match f_payment_type fs with
             | Some pt => negb (valid_payment_type pt)
             | None => false
             end in
  if bad then inl "payment_type must be 'prepay' or 'postpay'"
  else
    let p := fun c => String.eqb (email c) e in
    match find p db with
    | None => inr (None, db)
    | Some c => inr (Some (apply_fields fs c), update_first p (apply_fields fs) db)
    end.

(** [session.delete(client)] of the first matching row. *)
Fixpoint delete_first (p : client -> bool) (db : clients) : clients :=
  match db with
  | [] => []
  | c :: db' => if p c then db' else c :: delete_first p db'
  end.

(** [delete_client(email)] *)
Definition delete_client (db : clients) (email_in : string) : bool * clients :=
  let p := fun c => String.eqb (email c) (norm_email email_in) in
  match find p db with
  | None => (false, db)
  | Some _ => (true, delete_first p db)
  end.

(** The admin tool [update_client(email, name="", payment_type="",
    zelle_address="", discount_percent=-1, discount_orders_left=-1)]: the
    fields it passes on, with their [f"{k}='{v}'"] renderings in order. *)
Definition admin_fields (name_in pt zelle : string) (dp dl : Z)
  : UpdateFields * list string :=
  let fs := mkFields (if String.eqb name_in "" then None else Some name_in)
                     (if String.eqb pt "" then None else Some pt)
                     (if String.eqb zelle "" then None else Some zelle)
                     (if dp >=? 0 then Some dp else None)
                     (if dl >=? 0 then Some dl else None) in
  let shown :=
    app (if String.eqb name_in "" then [] else ["name='" ++ name_in ++ "'"])
    (app (if String.eqb pt "" then [] else ["payment_type='" ++ pt ++ "'"])
    (app (if String.eqb zelle "" then [] else ["zelle_address='" ++ zelle ++ "'"])
    (app (if dp >=? 0 then ["discount_percent='" ++ z_to_string dp ++ "'"] else [])
         (if dl >=? 0 then ["discount_orders_left='" ++ z_to_string dl ++ "'"] else [])))) in
  (fs, shown).

Definition admin_update_client (db : clients) (email_in name_in pt zelle : string)
    (dp dl : Z) : string * clients :=
  let '(fs, shown) := admin_fields name_in pt zelle dp dl in
  match shown with
  | [] => ("No changes specified.", db)
  | _ =>
      match update_client db email_in fs with
      | inl msg => ("Error: " ++ msg, db)
      | inr (None, db') => ("Error: client " ++ email_in ++ " not found.", db')
      | inr (Some _, db') =>
          ("Updated " ++ email_in ++ ": " ++ String.concat ", " shown, db')
      end
  end.

(** The table as [add_client] builds it: emails unique (the [unique=True]
    column), payment types valid and discounts in [0, 100]. *)
Definition client_ok (c : client) : bool :=
  valid_payment_type (payment_type c) && (0 <=? discount_percent c)
  && (discount_percent c <=? 100).

Definition table_ok (db : clients) : Prop :=
  NoDup (map email db) /\ Forall (fun c => client_ok c = true) db.

End Directory.

(* ------------------------------------------------------------------ *)
(** ** Gmail history listing ([GmailClient.get_new_messages]) *)

Module GmailApi.
Import Poller.

(** A message of a [messagesAdded] record: its [id] and [labelIds]. *)
Record GMsg := mkGMsg {
  gm_id : string;
  gm_labels : list string
}.

(** One page of [users().history().list(...)]: [historyId] (when present),
    the [messagesAdded] list of every [history] record, [nextPageToken]. *)
Record HistPage := mkPage {
  hp_history_id : option string;
  hp_history : list (list GMsg);
  hp_next_page_token : option string
}.

Definition _SKIP_LABELS : list string :=
  ["CATEGORY_PROMOTIONS"; "CATEGORY_SOCIAL"; "CATEGORY_UPDATES"; "CATEGORY_FORUMS";
   "SPAM"; "TRASH"].

Definition mem (x : string) (l : list string) : bool := existsb (String.eqb x) l.

(** ["INBOX" in labels and "SENT" not in labels and not labels & _SKIP_LABELS] *)
Definition primary_inbox (labels : list string) : bool :=
  mem "INBOX" labels && negb (mem "SENT" labels)
  && negb (existsb (fun l => mem l _SKIP_LABELS) labels).

(** The candidates one page contributes. *)
Definition page_candidates (hid : string) (p : HistPage) : list Candidate :=
  flat_map (fun msgs => map (fun m => mkCandidate (gm_id m) (Some hid))
                            (filter (fun m => primary_inbox (gm_labels m)) msgs))
           (hp_history p).

(** How the [while True] loop ends. *)
Inductive FetchEnd :=
| Pages (msgs : list Candidate)   (* [break]: the accumulated candidates *)
| Expired                         (* [return []] from the [except] *)
| Raised (e : string).            (* [raise] *)

Section Fetch.
(** [api token] is [history().list(...).execute()] with [pageToken] set
    when [token] is [Some]; [inl e] is the exception, [e] being [str(e)]. *)
Variable api : option string -> string + HistPage.
Variable after_history_id : string.

Fixpoint fetch_pages (fuel : nat) (token : option string) (acc : list Candidate)
  : option FetchEnd :=
  match fuel with
  | O => None
  | S f =>
      match api token with
      | inl e =>
          if contains "404" e || contains "historyId" (lower e) then Some Expired
          else Some (Raised e)
      | inr p =>
          let hid := match hp_history_id p with Some h => h | None => after_history_id end in
          let acc' := (acc ++ page_candidates hid p)%list in
          match hp_next_page_token p with
          | Some t => if String.eqb t "" then Some (Pages acc') else fetch_pages f (Some t) acc'
          | None => Some (Pages acc')
          end
      end
  end.

End Fetch.

(** The [seen] / [unique] loop. *)
Fixpoint dedup_go (seen : list string) (l : list Candidate) : list Candidate :=
  match l with
  | [] => []
  | m :: l' =>
      if mem (msg_id m) seen then dedup_go seen l'
      else m :: dedup_go (msg_id m :: seen) l'
  end.

Definition dedup (l : list Candidate) : list Candidate := dedup_go [] l.

(** [get_new_messages(after_history_id)]; [None] when the pages never end
    within [fuel] requests, [inl e] when it raises. *)
Definition get_new_messages (api : option string -> string + HistPage)
    (after_history_id : string) (fuel : nat) : option (string + list Candidate) :=
  match fetch_pages api after_history_id fuel None [] with
  | None => None
  | Some (Pages msgs) => Some (inr (dedup msgs))
  | Some Expired => Some (inr [])
  | Some (Raised e) => Some (inl e)
  end.

End GmailApi.

(* ------------------------------------------------------------------ *)
(** ** Email text and Telegram escaping ([gmail_poller.py], [email_agent.py]) *)

Module EmailText.

(** The dict [get_message] returns (every key present). *)
Record GmailMessage := mkMessage {
  m_from : string;
  m_from_raw : string;
  m_reply_to : string;
  m_subject : string;
  m_body : string
}.

(** [_format_email_text(msg)] *)
Definition _format_email_text (msg : GmailMessage) : string :=
  String.concat nl
    (app ["From: " ++ m_from_raw msg]
     (app (if String.eqb (m_reply_to msg) "" then [] else ["Reply-To: " ++ m_reply_to msg])
          ["Subject: " ++ m_subject msg; "Body: " ++ m_body msg])).

(** [s.split(sep)] for a one-character separator. *)
Fixpoint split_char (sep : ascii) (s : string) : list string :=
  match s with
  | EmptyString => [EmptyString]
  | String a s' =>
      if Ascii.eqb a sep then EmptyString :: split_char sep s'
      else match split_char sep s' with
           | x :: xs => String a x :: xs
           | [] => [String a EmptyString]
           end
  end.

(** [line.split(":", 1)[1]] on a line known to contain [":"]. *)
Fixpoint after_colon (s : string) : string :=
  match s with
  | EmptyString => EmptyString
  | String a s' => if Ascii.eqb a ":" then s' else after_colon s'
  end.

Fixpoint find_subject (lines : list string) : string :=
  match lines with
  | [] => ""
  | line :: rest =>
      if starts_with "subject:" (lower line) then strip (after_colon line)
      else find_subject rest
  end.

(** Step 5 of [classify_and_process]: the subject saved with the email. *)
Definition email_subject (email_text : string) : string :=
  find_subject (split_char (ascii_of_nat 10) email_text).

(** [.replace("<", "&lt;").replace(">", "&gt;")] of [_send_telegram_result]. *)
Definition html_escape (s : string) : string :=
  replace ">" "&gt;" (replace "<" "&lt;" s).

(** [if len(result) > 3500: result = result[:3500] + "\n... (truncated)"] *)
Definition truncate_result (result : string) : string :=
  if (3500 <? String.length result)%nat
  then substring 0 3500 result ++ nl ++ "... (truncated)"
  else result.

(** The three dynamic parts of the Telegram text: subject, sender, result. *)
Definition telegram_fields (msg : GmailMessage) (result : string)
  : string * string * string :=
  (html_escape (m_subject msg), html_escape (m_from msg),
   html_escape (truncate_result result)).

Fixpoint count_char (c : ascii) (s : string) : nat :=
  match s with
  | EmptyString => O
  | String a s' => (if Ascii.eqb a c then 1 else 0) + count_char c s'
  end%nat.

(** The newline character. *)
Definition nlc : ascii := ascii_of_nat 10.

End EmailText.

(* ------------------------------------------------------------------ *)
(** ** Message ids recorded in the history table *)

Module PollerIds.
Import History.

(** The [gmail_message_id] values of the rows, in table order (rows with
    a null id contribute nothing). *)
Definition gmail_ids (store : list EmailHistory) : list string :=
  flat_map (fun r => match h_gmail_message_id r with Some m => [m] | None => [] end) store.

(** [s2] is [s1] with rows appended (rows are only ever added). *)
Definition extends (s1 s2 : list EmailHistory) : Prop := exists extra, s2 = (s1 ++ extra)%list.

End PollerIds.

(* ------------------------------------------------------------------ *)
(** ** Where a returned candidate comes from ([get_new_messages]) *)

Module GmailApiSpec.
Import Poller GmailApi.

(** [c] was built from a message [m] of one [messagesAdded] list of a page
    the API returned, passing the label filter, with the page's
    [historyId] (or [after_history_id] when the page has none). *)
Definition from_page (api : option string -> string + HistPage) (a : string) (c : Candidate) : Prop :=
  exists tok p msgs m,
    api tok = inr p /\ In msgs (hp_history p) /\ In m msgs /\
    primary_inbox (gm_labels m) = true /\
    msg_id c = gm_id m /\
    history_id c = Some (match hp_history_id p with Some h => h | None => a end).

End GmailApiSpec.

(* ------------------------------------------------------------------ *)
(** ** Concrete inputs used by the examples, witnesses and counterexamples *)

Module ExampleData.
Import History Normalize Poller.

Definition alice : client := mkClient "alice@shop.com" "Alice" "prepay" "pay@zelle.com" 5 1.

Definition order_cls (p : option string) : EmailClassification :=
  mkClassification true "new_order" " Alice@Shop.com " None None p None None None.

Definition bob : client := mkClient "bob@shop.com" "Bob" "postpay" "" 0 0.



Definition carol : client := mkClient "carol@shop.com" "Carol" "postpay" "" 10 0.

Definition carol_order : EmailClassification :=
  mkClassification true "new_order" "carol@shop.com" None None (Some "$50.00") None None None.

Definition hist (n : nat) (sit : string) : EmailHistory :=
  mkHist n "c@x.com" "inbound" "" "" sit None (Z.of_nat n).

(** 51 rows: the oldest is a [new_order], the 50 later ones are [tracking]. *)
Definition store51 : list EmailHistory :=
  hist 1 "new_order" :: map (fun n => hist n "tracking") (seq 2 50).

(** The spec's example: 3 recent rows, 2 older high-priority and 3 older
    tracking rows. *)
Definition spec_store : list EmailHistory :=
  [hist 1 "tracking"; hist 2 "new_order"; hist 3 "tracking"; hist 4 "discount_request";
   hist 5 "tracking"; hist 6 "tracking"; hist 7 "other"; hist 8 "payment_received"].


Definition seen_row : EmailHistory :=
  mkHist 1 "c@x.com" "inbound" "Order" "" "new_order" (Some "m1") 1.

Definition cursor_state : PollState := mkPollState [seen_row] (Some "3") 0.

End ExampleData.

Module Examples.
Import ExampleData.

Example price_fill_ex :
  price_fill (F := Q) "$1,200.00" 5 1 = (true, "$1140.00", "5").
Proof. vm_compute. reflexivity. Qed.

Example process_ex :
  snd (process_classified_email (F := Q) (order_cls (Some "$220.00")) [alice])
  = [mkClient "alice@shop.com" "Alice" "prepay" "pay@zelle.com" 0 0].
Proof. vm_compute. reflexivity. Qed.

End Examples.

(* ------------------------------------------------------------------ *)
(** ** Client-table lemmas *)

Lemma find_split (p : client -> bool) (db : clients) (c : client) :
  find p db = Some c ->
  exists pre post, db = (pre ++ c :: post)%list /\ forallb (fun x => negb (p x)) pre = true
                   /\ p c = true.
Proof.
  induction db as [|x db IH]; simpl; [discriminate|].
  destruct (p x) eqn:Hx.
  - intros [= <-]. exists [], db. auto.
  - intros Hf. destruct (IH Hf) as (pre & post & -> & Hpre & Hc).
    exists (x :: pre), post. simpl. rewrite Hx, Hpre. auto.
Qed.

Lemma update_first_split (p : client -> bool) (f : client -> client) pre c post :
  forallb (fun x => negb (p x)) pre = true -> p c = true ->
  update_first p f (pre ++ c :: post)%list = (pre ++ f c :: post)%list.
Proof.
  intros Hpre Hc. induction pre as [|x pre IH]; simpl in *.
  - rewrite Hc. reflexivity.
  - apply andb_prop in Hpre as [Hx Hpre]. destruct (p x); [discriminate|].
    rewrite IH; auto.
Qed.

Lemma find_split_first (p : client -> bool) pre c post :
  forallb (fun x => negb (p x)) pre = true -> p c = true ->
  find p (pre ++ c :: post)%list = Some c.
Proof.
  intros Hpre Hc. induction pre as [|x pre IH]; simpl in *.
  - rewrite Hc. reflexivity.
  - apply andb_prop in Hpre as [Hx Hpre]. destruct (p x); [discriminate|]. auto.
Qed.

Section ProcessFacts.
Context {F : Type} `{PyFloat F}.

(** Shape of [process_classified_email] once the client and the template
    are found. *)
Lemma process_template_path (cls : EmailClassification) (db : clients) c t :
  needs_reply cls = true ->
  get_client db (client_email cls) = Some c ->
  template_get (situation cls) (payment_type c) = Some t ->
  process_classified_email cls db =
  (mkResult (needs_reply cls) (situation cls) (client_email cls) (client_name cls)
            true (CDClient c) true (Some (fill_template t cls c)) false,
   if fst (fst (price_fill (or_str (price cls) "") (discount_percent c)
                           (discount_orders_left c)))
   then decrement_discount db (client_email cls) else db).
Proof.
  intros Hn Hc Ht. unfold process_classified_email. rewrite Hn, Hc, Ht. simpl.
  destruct (price_fill _ _ _) as [[ap fp] ds]. reflexivity.
Qed.

(** Whatever path is taken, the table only changes through a decrement
    that [price_fill] decided. *)
Lemma process_db_cases (cls : EmailClassification) (db : clients) :
  snd (process_classified_email cls db) = db \/
  exists c t, needs_reply cls = true /\ get_client db (client_email cls) = Some c /\
    template_get (situation cls) (payment_type c) = Some t /\
    fst (fst (price_fill (or_str (price cls) "") (discount_percent c)
                         (discount_orders_left c))) = true /\
    snd (process_classified_email cls db) = decrement_discount db (client_email cls).
Proof.
  destruct (needs_reply cls) eqn:Hn.
  2:{ left. unfold process_classified_email. rewrite Hn. reflexivity. }
  destruct (get_client db (client_email cls)) as [c|] eqn:Hc.
  2:{ left. unfold process_classified_email. rewrite Hn, Hc. reflexivity. }
  destruct (template_get (situation cls) (payment_type c)) as [t|] eqn:Ht.
  2:{ left. unfold process_classified_email. rewrite Hn, Hc, Ht. reflexivity. }
  rewrite (process_template_path cls db c t Hn Hc Ht). simpl.
  destruct (fst (fst (price_fill _ _ _))) eqn:Ha.
  - right. exists c, t. auto.
  - left. reflexivity.
Qed.

Lemma price_fill_apply (p : string) (d l : Z) :
  fst (fst (price_fill p d l)) = (d >? 0) && (l >? 0) && f_gt (parse_price p) f_zero.
Proof.
  unfold price_fill. destruct ((d >? 0) && (l >? 0) && f_gt (parse_price p) f_zero);
  reflexivity.
Qed.

End ProcessFacts.

(* ------------------------------------------------------------------ *)
(** ** Discount claims *)

Section DiscountClaims.
Context {F : Type} `{PyFloat F}.

(** C1: when the client is found and the (situation, payment_type) key has
    a template, the draft is the filled template; the discount is applied
    exactly when [discount_percent > 0], [discount_orders_left > 0] and the
    parsed price (the text without [$] and [,]) is [> 0]; then the final price
    is ["$"] followed by [price * (1 - discount/100)] in [:.2f] format and the
    shown discount is [str(discount)]; otherwise the final price is the price
    text itself and the shown discount is ["0"]. *)
Theorem C1_discount_gate (cls : EmailClassification) (db : clients) (c : client) (t : string) :
  needs_reply cls = true ->
  get_client db (client_email cls) = Some c ->
  template_get (situation cls) (payment_type c) = Some t ->
  let p := or_str (price cls) "" in
  let d := discount_percent c in
  let price_num := parse_price p in
  r_template_used (fst (process_classified_email cls db)) = true /\
  r_draft_reply (fst (process_classified_email cls db)) = Some (fill_template t cls c) /\
  exists apply_discount final_price discount_str,
    price_fill p d (discount_orders_left c) = (apply_discount, final_price, discount_str) /\
    apply_discount = (d >? 0) && (discount_orders_left c >? 0) && f_gt price_num f_zero /\
    (apply_discount = true ->
       final_price = "$" ++ format_2f (f_mul price_num
                        (f_sub (f_of_int 1) (f_div (f_of_int d) (f_of_int 100))))
       /\ discount_str = z_to_string d) /\
    (apply_discount = false -> final_price = p /\ discount_str = "0").
Proof.
  intros Hn Hc Ht p d price_num.
  rewrite (process_template_path cls db c t Hn Hc Ht). simpl.
  split; [reflexivity|]. split; [reflexivity|].
  unfold price_fill. fold price_num.
  destruct ((d >? 0) && (discount_orders_left c >? 0) && f_gt price_num f_zero) eqn:Ha.
  - do 3 eexists. split; [reflexivity|]. split; [reflexivity|].
    split; [intros _; split; reflexivity | discriminate].
  - do 3 eexists. split; [reflexivity|]. split; [reflexivity|].
    split; [discriminate | intros _; split; reflexivity].
Qed.

(** C2: for a found client with [discount_percent > 0] and
    [discount_orders_left = n > 0], a qualifying order (template found, parsed
    price [> 0]) replaces that client's row, and only it, by the row with
    [discount_orders_left = n - 1] and, exactly when [n - 1 = 0],
    [discount_percent = 0]; a re-fetch returns that row. *)
Theorem C2_decrement_once (cls : EmailClassification) (db : clients) (c : client) (t : string) :
  needs_reply cls = true ->
  get_client db (client_email cls) = Some c ->
  template_get (situation cls) (payment_type c) = Some t ->
  discount_percent c > 0 ->
  discount_orders_left c > 0 ->
  f_gt (parse_price (or_str (price cls) "")) f_zero = true ->
  let n := discount_orders_left c in
  let c' := mkClient (email c) (name c) (payment_type c) (zelle_address c)
                     (if n - 1 =? 0 then 0 else discount_percent c) (n - 1) in
  (exists pre post, db = (pre ++ c :: post)%list /\
     snd (process_classified_email cls db) = (pre ++ c' :: post)%list) /\
  get_client (snd (process_classified_email cls db)) (client_email cls) = Some c'.
Proof.
  intros Hn Hc Ht Hd Hl Hp n c'.
  rewrite (process_template_path cls db c t Hn Hc Ht). simpl.
  rewrite price_fill_apply, Hp.
  replace (discount_percent c >? 0) with true by lia.
  replace (discount_orders_left c >? 0) with true by lia. simpl.
  unfold get_client in Hc.
  destruct (find_split _ _ _ Hc) as (pre & post & Hdb & Hpre & Hcm).
  assert (Hrow : decrement_row c = c').
  { unfold decrement_row, c', n. replace (discount_orders_left c >? 0) with true by lia.
    reflexivity. }
  unfold decrement_discount. rewrite Hdb, (update_first_split _ _ _ _ _ Hpre Hcm), Hrow.
  split.
  - exists pre, post. split; reflexivity.
  - unfold get_client. apply find_split_first; [exact Hpre|]. exact Hcm.
Qed.

(** C8: a price text that [float()] rejects after stripping [$] and [,]
    makes the parsed price [0.0]; as [0.0 > 0.0] is false the discount is
    skipped, the final price is the price text and the shown discount ["0"],
    and the client table is left as it was.  (The embedding is total: no
    exception is raised.) *)
Theorem C8_malformed_price (cls : EmailClassification) (db : clients) :
  f_gt f_zero f_zero = false ->
  float_of_string (replace "," "" (replace "$" "" (or_str (price cls) ""))) = None ->
  parse_price (or_str (price cls) "") = f_zero /\
  (forall d l, price_fill (or_str (price cls) "") d l = (false, or_str (price cls) "", "0")) /\
  snd (process_classified_email cls db) = db.
Proof.
  intros Hz Hnone.
  assert (Hp : parse_price (or_str (price cls) "") = f_zero).
  { unfold parse_price. rewrite Hnone. reflexivity. }
  assert (Hf : forall d l, price_fill (or_str (price cls) "") d l
                           = (false, or_str (price cls) "", "0")).
  { intros d l. unfold price_fill. rewrite Hp, Hz, andb_false_r. reflexivity. }
  split; [exact Hp|]. split; [exact Hf|].
  destruct (process_db_cases cls db) as [Hs | (c & t & _ & _ & _ & Ha & _)]; [exact Hs|].
  rewrite Hf in Ha. discriminate.
Qed.

(** C9: a client with [discount_orders_left = 0] gets no discount, whatever
    its [discount_percent] and the price: the final price is the price text,
    the shown discount ["0"], and the client table (every field of every row)
    is unchanged by the processing. *)
Theorem C9_no_orders_left (cls : EmailClassification) (db : clients) (c : client) :
  get_client db (client_email cls) = Some c ->
  discount_orders_left c = 0 ->
  price_fill (or_str (price cls) "") (discount_percent c) (discount_orders_left c)
    = (false, or_str (price cls) "", "0") /\
  snd (process_classified_email cls db) = db.
Proof.
  intros Hc Hl.
  assert (Hf : price_fill (or_str (price cls) "") (discount_percent c) (discount_orders_left c)
               = (false, or_str (price cls) "", "0")).
  { unfold price_fill. rewrite Hl. simpl. rewrite andb_false_r. reflexivity. }
  split; [exact Hf|].
  destruct (process_db_cases cls db) as [Hs | (c' & t & _ & Hc' & _ & Ha & _)]; [exact Hs|].
  rewrite Hc in Hc'. injection Hc' as <-. rewrite Hf in Ha. discriminate.
Qed.

End DiscountClaims.

Module PlaceholderLemmas.
Import Placeholders.














End PlaceholderLemmas.

Module PlaceholderFacts.
Import Placeholders PlaceholderLemmas.










Section Fill.
Context {F : Type} `{PyFloat F}.


End Fill.
End PlaceholderFacts.

Module PlaceholderClaims.
Import Placeholders PlaceholderLemmas PlaceholderFacts ExampleData.



End PlaceholderClaims.

(* ------------------------------------------------------------------ *)
(** ** History selection *)

Module HistoryFacts.
Import History.

Section SortBy.
Context {A : Type} (before : A -> A -> bool).
Let R := fun a b => before a b = true.

Lemma insert_by_perm x l : Permutation (insert_by before x l) (x :: l).
Proof.
  induction l as [|y l IH]; simpl; [auto|].
  destruct (before x y); [auto|].
  eapply perm_trans; [apply perm_skip, IH | apply perm_swap].
Qed.

Lemma sort_by_perm l : Permutation (sort_by before l) l.
Proof.
  induction l as [|x l IH]; simpl; [auto|].
  eapply perm_trans; [apply insert_by_perm | apply perm_skip, IH].
Qed.

Hypothesis before_total : forall a b, before a b = false -> before b a = true.

Lemma insert_by_sorted x l : Sorted R l -> Sorted R (insert_by before x l).
Proof.
  induction 1 as [|y l Hs IH Hhd]; simpl.
  - repeat constructor.
  - destruct (before x y) eqn:E.
    + constructor; [constructor; assumption | constructor; exact E].
    + constructor; [exact IH|].
      destruct l as [|z l]; simpl.
      * constructor. apply before_total. exact E.
      * destruct (before x z); constructor;
          [apply before_total; exact E | inversion Hhd; assumption].
Qed.

Lemma sort_by_sorted l : Sorted R (sort_by before l).
Proof. induction l; simpl; [constructor | apply insert_by_sorted; assumption]. Qed.

End SortBy.


Lemma ge_total (f : EmailHistory -> Z) a b :
  (f a >=? f b) = false -> (f b >=? f a) = true.
Proof. intros E. apply Z.geb_le. rewrite Z.geb_leb in E. apply Z.leb_gt in E. lia. Qed.




End HistoryFacts.

Module HistoryClaims.
Import History HistoryFacts.



Lemma in_firstn_l {A} n (l : list A) x : In x (firstn n l) -> In x l.
Proof. intros H. rewrite <- (firstn_skipn n l). apply in_or_app. left. exact H. Qed.

Lemma in_skipn_l {A} n (l : list A) x : In x (skipn n l) -> In x l.
Proof. intros H. rewrite <- (firstn_skipn n l). apply in_or_app. right. exact H. Qed.

(** C10: every row [get_email_history] returns is one of the client's 50
    most recent rows ([history_query]). *)
Theorem C10_within_latest_50 (store : list EmailHistory) (e : string) (max_total : Z)
    (r : EmailHistory) :
  In r (get_email_history_rows store e max_total) -> In r (history_query store e).
Proof.
  unfold get_email_history_rows. destruct (history_query store e) as [|r0 rs] eqn:Eq;
    [simpl; tauto|].
  rewrite <- Eq. intros Hin.
  apply (Permutation_in _ (sort_by_perm _ _)) in Hin.
  apply in_app_or in Hin as [Hin | Hin].
  - exact (in_firstn_l _ _ _ Hin).
  - unfold py_slice_upto in Hin.
    assert (Hsc : forall n, In r (firstn n (sort_by (fun a b => score a >=? score b)
                                              (skipn 3 (history_query store e)))) ->
                  In r (history_query store e)).
    { intros n Hn. apply in_firstn_l in Hn.
      apply (Permutation_in _ (sort_by_perm _ _)) in Hn.
      exact (in_skipn_l _ _ _ Hn). }
    destruct (_ >=? 0); exact (Hsc _ Hin).
Qed.

End HistoryClaims.

Module HistoryExamples.
Import History HistoryFacts HistoryClaims ExampleData.



End HistoryExamples.

(* ------------------------------------------------------------------ *)
(** ** Normalization claims *)

Module NormalizeClaims.
Import Normalize.






End NormalizeClaims.

(* ------------------------------------------------------------------ *)
(** ** Poll-cycle claims *)

Module PollerClaims.
Import History Poller ExampleData.

Lemma inbound_count_app m l1 l2 :
  inbound_count m (l1 ++ l2)%list = (inbound_count m l1 + inbound_count m l2)%nat.
Proof. unfold inbound_count. rewrite filter_app, length_app. reflexivity. Qed.

Lemma inbound_count_fresh m store :
  email_already_processed store m = false -> inbound_count m store = O.
Proof.
  unfold email_already_processed, inbound_count.
  induction store as [|r store IH]; simpl; [reflexivity|].
  intros H. apply orb_false_iff in H as [Hr Hs].
  rewrite Hr. simpl. exact (IH Hs).
Qed.

Lemma processed_app_last store r m :
  h_gmail_message_id r = Some m -> email_already_processed (store ++ [r])%list m = true.
Proof.
  intros Hr. unfold email_already_processed. rewrite existsb_app. simpl.
  rewrite Hr. simpl. rewrite String.eqb_refl. rewrite orb_true_r. reflexivity.
Qed.

Lemma processed_app store l m :
  email_already_processed store m = true -> email_already_processed (store ++ l)%list m = true.
Proof.
  intros H. unfold email_already_processed in *. rewrite existsb_app, H. reflexivity.
Qed.

(** C7: once a message has been handled to the end (its inbound row saved),
    handling the same message id again is skipped by the
    [email_already_processed] check before any classification call, leaving
    the state as it was, and exactly one inbound row carries that id.  The
    [unique] column is the backstop: [save_email] with an id already stored
    leaves the table unchanged instead of adding a second row. *)
Theorem C7_idempotent_message (st : PollState) (latest latest' : string) (c : Candidate)
    (em subj sit body : string) (draft : option string) (h2 : Handling) :
  email_already_processed (ps_history st) (msg_id c) = false ->
  let st1 := fst (fst (handle_candidate st latest c (PipelineSaves em subj sit body draft))) in
  let second := handle_candidate st1 latest' c h2 in
  ps_classify_calls st1 = S (ps_classify_calls st) /\
  email_already_processed (ps_history st1) (msg_id c) = true /\
  second = (st1, false, latest') /\
  inbound_count (msg_id c) (ps_history (fst (fst second))) = 1%nat /\
  (forall store e dir s b si m,
     email_already_processed store m = true ->
     save_email store e dir s b si (Some m) = store).
Proof.
  intros Hfresh st1 second.
  set (row := mkHist (S (length (ps_history st))) (norm_email em) "inbound" subj body sit
                     (Some (msg_id c)) (Z.of_nat (S (length (ps_history st))))).
  assert (Hs1 : ps_history st1 =
    match draft with
    | Some d => if String.eqb d "" then (ps_history st ++ [row])%list
                else save_email (ps_history st ++ [row])%list em "outbound"
                       (if String.eqb subj "" then "" else "Re: " ++ subj) d sit None
    | None => (ps_history st ++ [row])%list
    end).
  { assert (Hin : save_email (ps_history st) em "inbound" subj body sit (Some (msg_id c))
                  = (ps_history st ++ [row])%list).
    { unfold save_email. rewrite Hfresh. reflexivity. }
    unfold st1, handle_candidate. rewrite Hfresh. cbn [fst ps_history].
    rewrite Hin. reflexivity. }
  assert (Hc1 : ps_classify_calls st1 = S (ps_classify_calls st)).
  { unfold st1, handle_candidate. rewrite Hfresh. reflexivity. }
  assert (Hp1 : email_already_processed (ps_history st1) (msg_id c) = true /\
                inbound_count (msg_id c) (ps_history st1) = 1%nat).
  { assert (Hrow : email_already_processed (ps_history st ++ [row])%list (msg_id c) = true)
      by (apply processed_app_last; reflexivity).
    assert (Hcnt : inbound_count (msg_id c) (ps_history st ++ [row])%list = 1%nat).
    { rewrite inbound_count_app, (inbound_count_fresh _ _ Hfresh). unfold inbound_count.
      simpl. rewrite String.eqb_refl. reflexivity. }
    rewrite Hs1. destruct draft as [d|]; [|auto].
    destruct (String.eqb d ""); [auto|]. unfold save_email.
    split; [apply processed_app; exact Hrow|].
    rewrite inbound_count_app, Hcnt. reflexivity. }
  destruct Hp1 as [Hp1 Hcnt1].
  assert (Hsecond : second = (st1, false, latest')).
  { unfold second, handle_candidate. rewrite Hp1. reflexivity. }
  split; [exact Hc1|]. split; [exact Hp1|]. split; [exact Hsecond|].
  split.
  - rewrite Hsecond. exact Hcnt1.
  - intros store e dir s b si m Hm. unfold save_email. rewrite Hm. reflexivity.
Qed.

(** C3 (code_bug): a batch whose only candidate is already processed
    ([m1], position ["5"]) leaves the stored cursor at ["3"]: the
    [continue] of the duplicate check jumps over the [history_id] update, so
    the cursor is not the highest position among all fetched candidates. *)
Theorem C3_skipped_candidate_not_tracked :
  ps_gmail_state (fst (poll_gmail cursor_state "9" [mkCandidate "m1" (Some "5")]
                                  (fun _ => FetchFails)))
  = Some "3".
Proof. vm_compute. reflexivity. Qed.

(** The part of the cursor policy that holds: in a batch of three where the
    second message fails, the cursor moves to the last position, messages 1
    and 3 are recorded and message 2 is not. *)
Lemma poll_failure_does_not_stall :
  let res := poll_gmail (mkPollState [] (Some "3") 0) "9"
               [mkCandidate "a1" (Some "4"); mkCandidate "a2" (Some "5");
                mkCandidate "a3" (Some "6")]
               (fun m => if String.eqb m "a2" then FetchFails
                         else PipelineSaves "c@x.com" "Hi" "other" "text" None) in
  ps_gmail_state (fst res) = Some "6" /\
  email_already_processed (ps_history (fst res)) "a1" = true /\
  email_already_processed (ps_history (fst res)) "a2" = false /\
  email_already_processed (ps_history (fst res)) "a3" = true.
Proof. vm_compute. repeat split. Qed.

End PollerClaims.

(* ------------------------------------------------------------------ *)
(** ** Witnesses: the claims' hypotheses met at concrete inputs *)

Module Witnesses.
Import ExampleData Placeholders PlaceholderLemmas PlaceholderFacts PlaceholderClaims.



Lemma C1_discount_gate_witness :
  needs_reply (order_cls (Some "$220.00")) = true /\
  get_client [alice] (client_email (order_cls (Some "$220.00"))) = Some alice /\
  template_get (situation (order_cls (Some "$220.00"))) (payment_type alice)
    = Some template_new_order_prepay /\
  r_template_used (fst (process_classified_email (F := Q) (order_cls (Some "$220.00"))
                          [alice])) = true.
Proof.
  split; [reflexivity|]. split; [vm_compute; reflexivity|]. split; [reflexivity|].
  apply (proj1 (@C1_discount_gate Q QFloat (order_cls (Some "$220.00")) [alice] alice
                  template_new_order_prepay eq_refl ltac:(vm_compute; reflexivity) eq_refl)).
Defined.

Lemma C2_decrement_once_witness :
  discount_percent alice = 5 /\ discount_orders_left alice = 1 /\
  f_gt (parse_price (F := Q) "$220.00") f_zero = true /\
  get_client (snd (process_classified_email (F := Q) (order_cls (Some "$220.00")) [alice]))
             "alice@shop.com"
    = Some (mkClient "alice@shop.com" "Alice" "prepay" "pay@zelle.com" 0 0).
Proof.
  split; [reflexivity|]. split; [reflexivity|]. split; [vm_compute; reflexivity|].
  apply (proj2 (@C2_decrement_once Q QFloat (order_cls (Some "$220.00")) [alice] alice
                  template_new_order_prepay eq_refl ltac:(vm_compute; reflexivity) eq_refl
                  ltac:(vm_compute; reflexivity) ltac:(vm_compute; reflexivity)
                  ltac:(vm_compute; reflexivity))).
Defined.

Lemma C9_no_orders_left_witness :
  get_client [carol] "carol@shop.com" = Some carol /\ discount_orders_left carol = 0 /\
  snd (process_classified_email (F := Q) carol_order [carol]) = [carol].
Proof.
  split; [vm_compute; reflexivity|]. split; [reflexivity|].
  apply (proj2 (@C9_no_orders_left Q QFloat carol_order [carol] carol
                  ltac:(vm_compute; reflexivity) eq_refl)).
Defined.

Lemma C8_malformed_price_witness :
  float_of_string (F := Q) "abc" = None /\
  snd (process_classified_email (F := Q) (order_cls (Some "abc")) [alice]) = [alice].
Proof.
  split; [vm_compute; reflexivity|].
  apply (proj2 (proj2 (@C8_malformed_price Q QFloat (order_cls (Some "abc")) [alice]
                         ltac:(vm_compute; reflexivity) ltac:(vm_compute; reflexivity)))).
Defined.


End Witnesses.

Module MoreWitnesses.
Import History HistoryFacts HistoryClaims HistoryExamples Normalize NormalizeClaims
       Poller PollerClaims ExampleData.

Lemma spec_store_result :
  map h_id (get_email_history_rows spec_store "c@x.com" 10) = [1;2;3;4;5;6;7;8]%nat.
Proof. vm_compute. reflexivity. Qed.


Lemma C10_within_latest_50_witness :
  In (hist 48 "tracking") (get_email_history_rows store51 "c@x.com" 10) /\
  In (hist 48 "tracking") (history_query store51 "c@x.com").
Proof.
  assert (Hin : In (hist 48 "tracking") (get_email_history_rows store51 "c@x.com" 10))
    by (vm_compute; repeat (first [left; reflexivity | right])).
  split; [exact Hin|].
  exact (C10_within_latest_50 store51 "c@x.com" 10 (hist 48 "tracking") Hin).
Defined.


Lemma C7_idempotent_message_witness :
  email_already_processed [] "x1" = false /\
  ps_classify_calls
    (fst (fst (handle_candidate (mkPollState [] (Some "3") 0) "3" (mkCandidate "x1" (Some "4"))
                 (PipelineSaves "c@x.com" "Hi" "new_order" "text" (Some "draft"))))) = 1%nat.
Proof.
  split; [reflexivity|].
  exact (proj1 (C7_idempotent_message (mkPollState [] (Some "3") 0) "3" "4"
                  (mkCandidate "x1" (Some "4")) "c@x.com" "Hi" "new_order" "text"
                  (Some "draft") FetchFails eq_refl)).
Defined.

End MoreWitnesses.

(* ------------------------------------------------------------------ *)
(** ** Client directory: add, update, delete, decrement *)

Module DirectoryFacts.
Import Directory.

Lemma find_none_all (p : client -> bool) db :
  find p db = None -> forall x, In x db -> p x = false.
Proof.
  induction db as [|y db IH]; simpl; [tauto|].
  destruct (p y) eqn:Hy; [discriminate|]. intros H x [<- | Hx]; auto.
Qed.

Lemma find_app_none (p : client -> bool) db c :
  find p db = None -> p c = true -> find p (db ++ [c])%list = Some c.
Proof.
  induction db as [|y db IH]; simpl; [intros _ ->; reflexivity|].
  destruct (p y); [discriminate|]. exact IH.
Qed.

Lemma find_skip (p : client -> bool) pre c post :
  p c = false -> find p (pre ++ c :: post)%list = find p (pre ++ post)%list.
Proof.
  intros Hc. induction pre as [|x pre IH]; simpl; [rewrite Hc; reflexivity|].
  destruct (p x); [reflexivity|exact IH].
Qed.

Lemma map_email_update_first p f db :
  (forall c, email (f c) = email c) -> map email (update_first p f db) = map email db.
Proof.
  intros Hf. induction db as [|c db IH]; simpl; [reflexivity|].
  destruct (p c); simpl; rewrite ?Hf, ?IH; reflexivity.
Qed.

Lemma Forall_update_first (Q : client -> Prop) p f db :
  (forall c, Q c -> Q (f c)) -> Forall Q db -> Forall Q (update_first p f db).
Proof.
  intros Hf Hq. induction Hq as [|c db Hc Hdb IH]; simpl; [constructor|].
  destruct (p c); constructor; auto.
Qed.

Lemma delete_first_split p pre c post :
  forallb (fun x => negb (p x)) pre = true -> p c = true ->
  delete_first p (pre ++ c :: post)%list = (pre ++ post)%list.
Proof.
  intros Hpre Hc. induction pre as [|x pre IH]; simpl in *; [rewrite Hc; reflexivity|].
  apply andb_prop in Hpre as [Hx Hpre]. destruct (p x); [discriminate|].
  rewrite IH; auto.
Qed.

Lemma forallb_negb_find (p : client -> bool) pre :
  forallb (fun x => negb (p x)) pre = true -> find p pre = None.
Proof.
  induction pre as [|x pre IH]; simpl; [reflexivity|].
  intros H. apply andb_prop in H as [Hx H]. destruct (p x); [discriminate|auto].
Qed.

Lemma find_app_l_none (p : client -> bool) pre post :
  find p pre = None -> find p (pre ++ post)%list = find p post.
Proof.
  induction pre as [|x pre IH]; simpl; [reflexivity|].
  destruct (p x); [discriminate|exact IH].
Qed.

Lemma decrement_row_email c : email (decrement_row c) = email c.
Proof. unfold decrement_row. destruct (_ >? 0); reflexivity. Qed.

Lemma apply_fields_email fs c : email (apply_fields fs c) = email c.
Proof. reflexivity. Qed.

Lemma client_ok_decrement c : client_ok c = true -> client_ok (decrement_row c) = true.
Proof.
  unfold decrement_row, client_ok. destruct (_ >? 0); [|auto]. simpl.
  destruct (_ =? 0); [|auto].
  intros H. apply andb_prop in H as [H _]. apply andb_prop in H as [H _].
  rewrite H. reflexivity.
Qed.

Lemma table_ok_decrement db e : table_ok db -> table_ok (decrement_discount db e).
Proof.
  intros [Hn Hf]. split.
  - unfold decrement_discount. rewrite map_email_update_first; [exact Hn|].
    exact decrement_row_email.
  - apply Forall_update_first; [|exact Hf]. exact client_ok_decrement.
Qed.

Lemma table_ok_delete db e : table_ok db -> table_ok (snd (delete_client db e)).
Proof.
  intros [Hn Hf]. unfold delete_client.
  destruct (find _ db) as [c|] eqn:Ef; [|split; assumption]. simpl.
  destruct (find_split _ db c Ef) as (pre & post & -> & Hpre & Hc).
  rewrite delete_first_split by assumption. split.
  - rewrite map_app in *. simpl in Hn. apply NoDup_remove_1 in Hn. exact Hn.
  - apply Forall_app in Hf as [Hf1 Hf2]. inversion Hf2; subst.
    apply Forall_app. auto.
Qed.

Lemma table_ok_add db e n pt z dp dl c db' :
  table_ok db -> add_client db e n pt z dp dl = inr (c, db') -> table_ok db'.
Proof.
  intros [Hn Hf]. unfold add_client.
  destruct (valid_payment_type pt) eqn:Hpt; [|discriminate]. simpl.
  destruct ((0 <=? dp) && (dp <=? 100)) eqn:Hdp; [|discriminate]. simpl.
  destruct (find _ db) as [x|] eqn:Ef; [discriminate|].
  intros [= <- <-]. split.
  - rewrite map_app. simpl. apply NoDup_app; [exact Hn|constructor;[tauto|constructor]|].
    intros x Hx [Hy|[]]. subst x.
    apply in_map_iff in Hx as (y & Hy & Hin).
    pose proof (find_none_all _ _ Ef y Hin) as Hf'. simpl in Hf'. rewrite Hy in Hf'.
    rewrite String.eqb_refl in Hf'. discriminate.
  - apply Forall_app. split; [exact Hf|]. constructor; [|constructor].
    unfold client_ok. simpl. rewrite Hpt. simpl. exact Hdp.
Qed.

End DirectoryFacts.

Module DirectoryExtras.
Import Directory DirectoryFacts.

(** X1: a successful [add_client] stores the row built from the normalized email and the given fields at the end of the table, and [get_client] then returns exactly that row. *)
Theorem add_client_then_get db e n pt z dp dl c db' :
  add_client db e n pt z dp dl = inr (c, db') ->
  c = mkClient (norm_email e) n pt z dp dl /\ db' = (db ++ [c])%list /\
  get_client db' e = Some c.
Proof.
  unfold add_client.
  destruct (valid_payment_type pt); [|discriminate]. simpl.
  destruct ((0 <=? dp) && (dp <=? 100)); [|discriminate]. simpl.
  destruct (find _ db) as [x|] eqn:Ef; [discriminate|].
  intros [= <- <-]. split; [reflexivity|]. split; [reflexivity|].
  unfold get_client. apply find_app_none; [exact Ef|]. simpl. apply String.eqb_refl.
Qed.

(** X2: [add_client] raises exactly when the payment type is neither 'prepay' nor 'postpay', the discount percent lies outside 0..100, or a client with the normalized email already exists. *)
Theorem add_client_rejects db e n pt z dp dl :
  (exists msg, add_client db e n pt z dp dl = inl msg) <->
  valid_payment_type pt = false \/ ~ (0 <= dp <= 100) \/ get_client db e <> None.
Proof.
  unfold add_client, get_client. split.
  - intros [msg Hm]. destruct (valid_payment_type pt); [|auto]. simpl in Hm.
    destruct ((0 <=? dp) && (dp <=? 100)) eqn:Hdp; simpl in Hm.
    + destruct (find _ db); [right; right; discriminate|discriminate].
    + right; left. intros [H1 H2]. apply Z.leb_le in H1, H2. rewrite H1, H2 in Hdp.
      discriminate.
  - intros H. destruct (valid_payment_type pt) eqn:Hpt; simpl; [|eauto].
    destruct ((0 <=? dp) && (dp <=? 100)) eqn:Hdp; simpl; [|eauto].
    destruct (find _ db); [eauto|].
    destruct H as [H|[H|H]]; [discriminate| |congruence].
    exfalso. apply H. apply andb_prop in Hdp as [H1 H2]. apply Z.leb_le in H1, H2. lia.
Qed.

(** X3: on a table with unique emails and only valid rows (payment type prepay/postpay, percent in 0..100), a successful [add_client], [decrement_discount] and [delete_client] each keep both properties. *)
Theorem table_ok_preserved db :
  table_ok db ->
  (forall e n pt z dp dl c db', add_client db e n pt z dp dl = inr (c, db') -> table_ok db') /\
  (forall e, table_ok (decrement_discount db e)) /\
  (forall e, table_ok (snd (delete_client db e))).
Proof.
  intros H. split; [|split].
  - intros. eapply table_ok_add; eauto.
  - intros e. apply table_ok_decrement, H.
  - intros e. apply table_ok_delete, H.
Qed.

(** X4: [update_client] never changes an email, so unique emails stay unique, and a successful update keeps every payment type valid. *)
Theorem update_client_keeps_keys db e fs r db' :
  NoDup (map email db) -> Forall (fun c => valid_payment_type (payment_type c) = true) db ->
  update_client db e fs = inr (r, db') ->
  NoDup (map email db') /\ Forall (fun c => valid_payment_type (payment_type c) = true) db'.
Proof.
  intros Hn Hf. unfold update_client.
  destruct (f_payment_type fs) as [pt|] eqn:Ept.
  - destruct (valid_payment_type pt) eqn:Hpt; simpl; [|discriminate].
    destruct (find _ db); intros [= <- <-]; [|auto]. split.
    + rewrite map_email_update_first; auto.
    + apply Forall_update_first; [|exact Hf]. intros x _. unfold apply_fields. simpl.
      rewrite Ept. exact Hpt.
  - destruct (find _ db); intros [= <- <-]; [|auto]. split.
    + rewrite map_email_update_first; auto.
    + apply Forall_update_first; [|exact Hf]. intros x Hx. unfold apply_fields. simpl.
      rewrite Ept. exact Hx.
Qed.

(** X5: with a valid (or no) new payment type, [update_client] on a missing email returns [None] and leaves the table alone; on a present one it returns the row with the given fields overwritten, [get_client] sees that row, and clients with other normalized emails are untouched. *)
Theorem update_client_then_get db e fs :
  (forall pt, f_payment_type fs = Some pt -> valid_payment_type pt = true) ->
  match get_client db e with
  | None => update_client db e fs = inr (None, db)
  | Some c =>
      exists db', update_client db e fs = inr (Some (apply_fields fs c), db') /\
        get_client db' e = Some (apply_fields fs c) /\
        forall e', norm_email e' <> norm_email e -> get_client db' e' = get_client db e'
  end.
Proof.
  intros Hpt. unfold update_client, get_client.
  assert (Hb : match f_payment_type fs with
               | Some pt => negb (valid_payment_type pt) | None => false end = false).
  { destruct (f_payment_type fs) as [pt|]; [rewrite (Hpt pt eq_refl)|]; reflexivity. }
  rewrite Hb.
  destruct (find _ db) as [c|] eqn:Ef; [|reflexivity].
  eexists. split; [reflexivity|].
  destruct (find_split _ db c Ef) as (pre & post & -> & Hpre & Hc).
  rewrite update_first_split by assumption. split.
  - apply find_split_first; [exact Hpre|]. simpl. exact Hc.
  - intros e' Hne.
    assert (Hd : forall x, String.eqb (email x) (norm_email e) = true ->
                           String.eqb (email x) (norm_email e') = false).
    { intros x Hx. apply String.eqb_eq in Hx. apply String.eqb_neq. congruence. }
    rewrite !find_skip; [reflexivity| |]; apply Hd; assumption.
Qed.

(** X6: with unique emails, [delete_client] returns whether the client existed, afterwards [get_client] finds no client under that email, and other emails are unaffected. *)
Theorem delete_client_removes db e :
  NoDup (map email db) ->
  fst (delete_client db e) = match get_client db e with Some _ => true | None => false end /\
  get_client (snd (delete_client db e)) e = None /\
  forall e', norm_email e' <> norm_email e ->
    get_client (snd (delete_client db e)) e' = get_client db e'.
Proof.
  intros Hn. unfold delete_client, get_client.
  destruct (find _ db) as [c|] eqn:Ef; simpl; [|auto].
  destruct (find_split _ db c Ef) as (pre & post & -> & Hpre & Hc).
  rewrite delete_first_split by assumption. split; [reflexivity|]. split.
  - rewrite find_app_l_none by (apply forallb_negb_find; exact Hpre).
    assert (Hout : ~ In (email c) (map email pre ++ map email post)%list).
    { rewrite map_app in Hn. simpl in Hn. exact (NoDup_remove_2 _ _ _ Hn). }
    apply String.eqb_eq in Hc.
    clear Ef Hpre Hn. induction post as [|x post IH]; simpl; [reflexivity|].
    destruct (String.eqb (email x) (norm_email e)) eqn:Hx.
    + exfalso. apply Hout. apply String.eqb_eq in Hx. apply in_or_app. right. left. congruence.
    + apply IH. intros H. apply Hout. apply in_app_or in H as [H|H]; apply in_or_app; [left|right; right]; exact H.
  - intros e' Hne. symmetry. apply find_skip. apply String.eqb_eq in Hc.
    apply String.eqb_neq. congruence.
Qed.

Lemma decrement_get db e c :
  get_client db e = Some c ->
  get_client (decrement_discount db e) e = Some (decrement_row c).
Proof.
  unfold get_client, decrement_discount. intros Ef.
  destruct (find_split _ db c Ef) as (pre & post & -> & Hpre & Hc).
  rewrite update_first_split by assumption.
  apply find_split_first; [exact Hpre|]. rewrite decrement_row_email. exact Hc.
Qed.

Lemma decrement_noop db e c :
  get_client db e = Some c -> discount_orders_left c <= 0 -> decrement_discount db e = db.
Proof.
  unfold get_client, decrement_discount. intros Ef Hl.
  destruct (find_split _ db c Ef) as (pre & post & -> & Hpre & Hc).
  rewrite update_first_split by assumption. unfold decrement_row.
  replace (discount_orders_left c >? 0) with false by lia. reflexivity.
Qed.

(** X7: for a client with [n] orders left, [n] calls of [decrement_discount] bring the counter to 0 and (when [n > 0]) the percent to 0, leaving the other fields; a further call changes nothing. *)
Theorem decrement_uses_up db e c (n : nat) :
  get_client db e = Some c -> discount_orders_left c = Z.of_nat n ->
  let db_n := Nat.iter n (fun d => decrement_discount d e) db in
  get_client db_n e =
    Some (mkClient (email c) (name c) (payment_type c) (zelle_address c)
                   (if (n =? 0)%nat then discount_percent c else 0) 0) /\
  decrement_discount db_n e = db_n.
Proof.
  revert db c. induction n as [|n IH]; intros db c Hc Hl db_n.
  - simpl in db_n. subst db_n. split.
    + rewrite Hc. destruct c; simpl in *. rewrite Hl. reflexivity.
    + apply (decrement_noop _ _ _ Hc). lia.
  - assert (Hi : db_n = Nat.iter n (fun d => decrement_discount d e) (decrement_discount db e)).
    { unfold db_n. clear. revert db. induction n as [|n IH]; intros db; [reflexivity|].
      simpl. f_equal. apply IH. }
    rewrite Hi. pose proof (decrement_get db e c Hc) as Hc1.
    assert (Hl1 : discount_orders_left (decrement_row c) = Z.of_nat n).
    { unfold decrement_row. replace (discount_orders_left c >? 0) with true by lia.
      simpl. lia. }
    destruct (IH _ _ Hc1 Hl1) as [H1 H2]. split; [|exact H2].
    rewrite H1. unfold decrement_row. replace (discount_orders_left c >? 0) with true by lia.
    simpl. destruct n; simpl; [|reflexivity].
    replace (discount_orders_left c - 1 =? 0) with true by lia. reflexivity.
Qed.

(** whitespace and case *)
Lemma lower_char_idem c : lower_char (lower_char c) = lower_char c.
Proof. destruct c as [[] [] [] [] [] [] [] []]; reflexivity. Qed.

Lemma lower_idem s : lower (lower s) = lower s.
Proof. induction s; simpl; [reflexivity|]. rewrite lower_char_idem, IHs. reflexivity. Qed.

Lemma lower_char_space c : is_space c = true -> lower_char c = c.
Proof. destruct c as [[] [] [] [] [] [] [] []]; try reflexivity; discriminate. Qed.

Lemma lower_app s t : lower (s ++ t) = (lower s ++ lower t)%string.
Proof. induction s; simpl; [reflexivity|]. rewrite IHs. reflexivity. Qed.

Lemma lstrip_app s t :
  lstrip (s ++ t) = if String.eqb (lstrip s) "" then lstrip t else (lstrip s ++ t)%string.
Proof.
  induction s as [|c s IH]; simpl; [reflexivity|].
  destruct (is_space c); [exact IH|reflexivity].
Qed.

Lemma rev_str_app s t acc : rev_str (s ++ t) acc = rev_str t (rev_str s acc).
Proof. revert acc. induction s; simpl; intros; auto. Qed.

Lemma rev_str_empty_iff s acc : rev_str s acc = "" -> s = "" /\ acc = "".
Proof.
  revert acc. induction s as [|c s IH]; simpl; intros acc H; [auto|].
  destruct (IH _ H) as [_ H']. discriminate.
Qed.

Lemma strip_space_l c s : is_space c = true -> strip (String c s) = strip s.
Proof. intros H. unfold strip. simpl. rewrite H. reflexivity. Qed.

Lemma strip_space_r c s : is_space c = true -> strip (s ++ String c "") = strip s.
Proof.
  intros H. unfold strip. rewrite lstrip_app. simpl. rewrite H.
  destruct (String.eqb (lstrip s) "") eqn:E.
  - apply String.eqb_eq in E. rewrite E. reflexivity.
  - rewrite rev_str_app. simpl. rewrite H. reflexivity.
Qed.

(** X8: [get_client] ignores letter case and a leading or trailing whitespace character of the email it is given. *)
Theorem get_client_normalizes db e c :
  is_space c = true ->
  get_client db (lower e) = get_client db e /\
  get_client db (String c e) = get_client db e /\
  get_client db (e ++ String c "") = get_client db e.
Proof.
  intros Hc. unfold get_client, norm_email.
  rewrite lower_idem. split; [reflexivity|]. split.
  - simpl. rewrite lower_char_space, strip_space_l by exact Hc. reflexivity.
  - rewrite lower_app. simpl. rewrite lower_char_space, strip_space_r by exact Hc.
    reflexivity.
Qed.

Lemma update_client_found db e fs c :
  get_client db e = Some c ->
  (exists m, update_client db e fs = inl m) \/
  exists db', update_client db e fs = inr (Some (apply_fields fs c), db') /\
              get_client db' e = Some (apply_fields fs c).
Proof.
  intros Ef. unfold update_client. destruct (match f_payment_type fs with
    | Some pt => negb (valid_payment_type pt) | None => false end); [left; eauto|].
  right. unfold get_client in Ef. rewrite Ef. eexists. split; [reflexivity|].
  unfold get_client.
  destruct (find_split _ db c Ef) as (pre & post & -> & Hpre & Hc).
  rewrite update_first_split by assumption.
  apply find_split_first; [exact Hpre|]. exact Hc.
Qed.

Lemma admin_fields_empty n pt z dp dl :
  snd (admin_fields n pt z dp dl) = [] <->
  n = "" /\ pt = "" /\ z = "" /\ dp < 0 /\ dl < 0.
Proof.
  unfold admin_fields. simpl.
  destruct (String.eqb_spec n ""); destruct (String.eqb_spec pt "");
  destruct (String.eqb_spec z ""); destruct (Z.geb_spec dp 0); destruct (Z.geb_spec dl 0);
  simpl; split; intros; try discriminate; try reflexivity; intuition lia.
Qed.

(** X9: for an existing client, the admin [update_client] tool answers 'No changes specified.' exactly when no field is given (empty strings and negative numbers), and it never blanks a non-empty name, payment type or Zelle address nor makes a nonnegative discount field negative. *)
Theorem admin_update_never_clears db e n pt z dp dl c :
  get_client db e = Some c ->
  (fst (admin_update_client db e n pt z dp dl) = "No changes specified." <->
   n = "" /\ pt = "" /\ z = "" /\ dp < 0 /\ dl < 0) /\
  exists c', get_client (snd (admin_update_client db e n pt z dp dl)) e = Some c' /\
    (name c <> "" -> name c' <> "") /\
    (payment_type c <> "" -> payment_type c' <> "") /\
    (zelle_address c <> "" -> zelle_address c' <> "") /\
    (0 <= discount_percent c -> 0 <= discount_percent c') /\
    (0 <= discount_orders_left c -> 0 <= discount_orders_left c').
Proof.
  intros Hc. rewrite <- admin_fields_empty.
  unfold admin_update_client.
  destruct (admin_fields n pt z dp dl) as [fs shown] eqn:Ea. simpl.
  assert (Hkeep : exists c', get_client db e = Some c' /\
    (name c <> "" -> name c' <> "") /\ (payment_type c <> "" -> payment_type c' <> "") /\
    (zelle_address c <> "" -> zelle_address c' <> "") /\
    (0 <= discount_percent c -> 0 <= discount_percent c') /\
    (0 <= discount_orders_left c -> 0 <= discount_orders_left c'))
    by (exists c; repeat split; auto).
  destruct shown as [|s0 shown]; [split; [tauto|exact Hkeep]|].
  destruct (update_client_found db e fs c Hc) as [[m Hm] | (db' & Hu & Hg)].
  - rewrite Hm. simpl. split; [split; [intros H; discriminate H | discriminate] | exact Hkeep].
  - rewrite Hu. simpl. split; [split; [intros H; discriminate H | discriminate]|].
    exists (apply_fields fs c). split; [exact Hg|].
    unfold admin_fields in Ea. injection Ea as <- _. unfold apply_fields; simpl.
    repeat split.
    + destruct (String.eqb_spec n ""); simpl; auto.
    + destruct (String.eqb_spec pt ""); simpl; auto.
    + destruct (String.eqb_spec z ""); simpl; auto.
    + destruct (Z.geb_spec dp 0); simpl; auto; lia.
    + destruct (Z.geb_spec dl 0); simpl; auto; lia.
Qed.

End DirectoryExtras.

(* ------------------------------------------------------------------ *)
(** ** History reads and writes *)

Module HistoryExtras.
Import History HistoryFacts HistoryClaims Poller.

Lemma history_rows_in_query store e m r :
  In r (get_email_history_rows store e m) -> In r (history_query store e).
Proof.
  unfold get_email_history_rows. destruct (history_query store e) as [|r0 rs] eqn:Eq;
    [simpl; tauto|].
  rewrite <- Eq. intros Hin.
  apply (Permutation_in _ (sort_by_perm _ _)) in Hin.
  apply in_app_or in Hin as [Hin | Hin]; [exact (in_firstn_l _ _ _ Hin)|].
  unfold py_slice_upto in Hin.
  assert (Hsc : forall n, In r (firstn n (sort_by (fun a b => score a >=? score b)
                                            (skipn 3 (history_query store e)))) ->
                In r (history_query store e)).
  { intros n Hn. apply in_firstn_l in Hn.
    apply (Permutation_in _ (sort_by_perm _ _)) in Hn. exact (in_skipn_l _ _ _ Hn). }
  destruct (_ >=? 0); exact (Hsc _ Hin).
Qed.

Lemma history_query_in store e r :
  In r (history_query store e) -> In r store /\ h_client_email r = norm_email e.
Proof.
  unfold history_query. intros H. apply in_firstn_l in H.
  apply (Permutation_in _ (sort_by_perm _ _)) in H. apply filter_In in H as [H1 H2].
  apply String.eqb_eq in H2. auto.
Qed.

(** X10: every row [get_email_history] returns is the dict of a stored row whose client email is the normalized query email. *)
Theorem history_only_own_rows store e m r :
  In r (get_email_history store e m) ->
  exists row, In row store /\ h_client_email row = norm_email e /\ r = to_dict row.
Proof.
  unfold get_email_history. intros H. apply in_map_iff in H as (row & <- & Hrow).
  apply history_rows_in_query, history_query_in in Hrow as [H1 H2]. eauto.
Qed.

Lemma history_query_length store e :
  length (history_query store e) =
  Nat.min 50 (length (filter (fun r => String.eqb (h_client_email r) (norm_email e)) store)).
Proof.
  unfold history_query. rewrite length_firstn, (Permutation_length (sort_by_perm _ _)).
  reflexivity.
Qed.

(** X11: for [max_total >= 3], [get_email_history] returns min(max_total, 50, number of the client's rows) rows. *)
Theorem history_respects_cap store e m :
  3 <= m ->
  length (get_email_history store e m) =
  Nat.min (Z.to_nat m)
    (Nat.min 50 (length (filter (fun r => String.eqb (h_client_email r) (norm_email e))
                                store))).
Proof.
  intros Hm. rewrite <- history_query_length.
  unfold get_email_history, get_email_history_rows. rewrite length_map.
  remember (history_query store e) as L eqn:EL. clear EL.
  destruct L as [|r0 rs]; [simpl; lia|]. set (L := r0 :: rs) in *.
  rewrite (Permutation_length (sort_by_perm _ _)), length_app, length_firstn.
  unfold py_slice_upto.
  destruct (Z.geb_spec (m - Z.of_nat (Nat.min 3 (length L))) 0); [|lia].
  rewrite length_firstn, (Permutation_length (sort_by_perm _ _)), length_skipn. lia.
Qed.

(** X12: for [max_total < 3] and at least 3 rows of the client among the 50 most recent, [get_email_history] still returns the 3 newest rows plus [max(0, rows + max_total - 6)] others, i.e. more than [max_total]. *)
Theorem history_small_cap_exceeded store e m :
  m < 3 ->
  (3 <= length (history_query store e))%nat ->
  Z.of_nat (length (get_email_history store e m)) =
  3 + Z.max 0 (Z.of_nat (length (history_query store e)) + m - 6).
Proof.
  intros Hm. unfold get_email_history, get_email_history_rows. rewrite length_map.
  remember (history_query store e) as L eqn:EL. clear EL. intros Hn.
  destruct L as [|r0 rs]; [simpl in Hn; lia|]. set (L := r0 :: rs) in *.
  rewrite (Permutation_length (sort_by_perm _ _)), length_app, length_firstn.
  unfold py_slice_upto.
  destruct (Z.geb_spec (m - Z.of_nat (Nat.min 3 (length L))) 0); [lia|].
  rewrite length_firstn, (Permutation_length (sort_by_perm _ _)), length_skipn. lia.
Qed.

Lemma sorted_desc_head (x h : EmailHistory) t :
  StronglySorted (fun a b => (h_created_at a >=? h_created_at b) = true) (h :: t) ->
  In x (h :: t) ->
  (forall y, In y (h :: t) -> y = x \/ h_created_at y < h_created_at x) -> h = x.
Proof.
  intros Hs Hx Hall. destruct (Hall h (or_introl eq_refl)) as [E|Hlt]; [exact E|].
  destruct Hx as [<- | Hx]; [lia|].
  apply StronglySorted_inv in Hs as [_ Hf].
  pose proof (proj1 (Forall_forall _ _) Hf x Hx) as Hge. apply Z.geb_le in Hge. lia.
Qed.

(** X13: when timestamps never exceed the table size and the message id (if any) is new, [save_email] appends exactly one row for the normalized email, that row is among what [get_email_history] returns for the same email, and the timestamp invariant holds again. *)
Theorem saved_email_in_history store e dir s b si gid m :
  (forall r, In r store -> h_created_at r <= Z.of_nat (length store)) ->
  match gid with Some id => email_already_processed store id = false | None => True end ->
  let row := mkHist (S (length store)) (norm_email e) dir s b si gid
                    (Z.of_nat (S (length store))) in
  let store' := save_email store e dir s b si gid in
  store' = (store ++ [row])%list /\
  In (to_dict row) (get_email_history store' e m) /\
  (forall r, In r store' -> h_created_at r <= Z.of_nat (length store')).
Proof.
  intros Hts Hfresh row store'.
  assert (Hs : store' = (store ++ [row])%list).
  { unfold store', save_email. destruct gid as [id|]; [rewrite Hfresh|]; reflexivity. }
  split; [exact Hs|]. split.
  - rewrite Hs. unfold get_email_history. apply in_map.
    set (flt := filter (fun r => String.eqb (h_client_email r) (norm_email e))
                       (store ++ [row])%list).
    assert (Hrow : In row flt).
    { apply filter_In. split; [apply in_or_app; right; left; reflexivity|].
      apply String.eqb_refl. }
    assert (Hq : exists t, history_query (store ++ [row])%list e = row :: t).
    { unfold history_query. fold flt.
      set (srt := sort_by (fun a b => h_created_at a >=? h_created_at b) flt).
      assert (Hin : In row srt) by (apply (Permutation_in _ (Permutation_sym (sort_by_perm _ _))); exact Hrow).
      destruct srt as [|h t] eqn:Esrt; [destruct Hin|].
      assert (Hss : StronglySorted (fun a b => (h_created_at a >=? h_created_at b) = true) (h :: t)).
      { rewrite <- Esrt. apply Sorted_StronglySorted.
        - intros a0 b0 c0 H1 H2. apply Z.geb_le in H1, H2. apply Z.geb_le. lia.
        - apply sort_by_sorted. intros a0 b0. apply ge_total. }
      assert (Hh : h = row).
      { apply (sorted_desc_head row h t Hss Hin). intros y Hy.
        rewrite <- Esrt in Hy. apply (Permutation_in _ (sort_by_perm _ _)) in Hy.
        apply filter_In in Hy as [Hy _]. apply in_app_or in Hy as [Hy|[Hy|[]]].
        - right. pose proof (Hts y Hy). simpl. lia.
        - left. symmetry. exact Hy. }
      subst h. exists (firstn 49 t). reflexivity. }
    destruct Hq as [t Hq]. unfold get_email_history_rows. rewrite Hq.
    apply (Permutation_in _ (Permutation_sym (sort_by_perm _ _))).
    apply in_or_app. left. destruct t; simpl; left; reflexivity.
  - rewrite Hs. intros r Hr. rewrite length_app. simpl.
    apply in_app_or in Hr as [Hr|[<-|[]]].
    + pose proof (Hts r Hr). lia.
    + simpl. lia.
Qed.

End HistoryExtras.

(* ------------------------------------------------------------------ *)
(** ** Message ids across a poll cycle *)

Module PollerExtras.
Import History Poller PollerIds.

Lemma processed_iff_in store m :
  email_already_processed store m = true <-> In m (gmail_ids store).
Proof.
  unfold email_already_processed, gmail_ids. rewrite existsb_exists, in_flat_map.
  split; intros (r & Hr & H); exists r; split; auto.
  - destruct (h_gmail_message_id r) as [x|]; simpl in *; [|discriminate].
    apply String.eqb_eq in H. left. congruence.
  - destruct (h_gmail_message_id r) as [x|]; simpl in *; [|contradiction].
    destruct H as [<-|[]]. apply String.eqb_refl.
Qed.

Lemma gmail_ids_app s1 s2 : gmail_ids (s1 ++ s2)%list = (gmail_ids s1 ++ gmail_ids s2)%list.
Proof. unfold gmail_ids. apply flat_map_app. Qed.

Lemma save_email_ids store e dir s b si gid :
  NoDup (gmail_ids store) ->
  (exists extra, save_email store e dir s b si gid = (store ++ extra)%list /\
                 (length extra <= 1)%nat) /\
  NoDup (gmail_ids (save_email store e dir s b si gid)).
Proof.
  intros Hn. unfold save_email. destruct gid as [m|].
  - destruct (email_already_processed store m) eqn:Ep.
    + split; [exists []; rewrite app_nil_r; auto|exact Hn].
    + split; [eexists; split; [reflexivity|simpl; lia]|].
      rewrite gmail_ids_app. simpl. apply NoDup_app; [exact Hn|repeat constructor; simpl; tauto|].
      intros x Hx [<-|[]]. apply processed_iff_in in Hx. congruence.
  - split; [eexists; split; [reflexivity|simpl; lia]|].
    rewrite gmail_ids_app. simpl. rewrite app_nil_r. exact Hn.
Qed.

Lemma handle_candidate_ids st latest c h :
  NoDup (gmail_ids (ps_history st)) ->
  let st' := fst (fst (handle_candidate st latest c h)) in
  extends (ps_history st) (ps_history st') /\ NoDup (gmail_ids (ps_history st')).
Proof.
  intros Hn st'. unfold st', handle_candidate.
  destruct (email_already_processed _ _); [split; [exists []; rewrite app_nil_r|]; auto|].
  destruct h as [| |em subj sit body draft]; cbn [fst snd ps_history];
    try (split; [exists []; rewrite app_nil_r; reflexivity|exact Hn]).
  destruct (save_email_ids (ps_history st) em "inbound" subj body sit (Some (msg_id c)) Hn)
    as [[x1 [E1 _]] N1].
  set (s1 := save_email (ps_history st) em "inbound" subj body sit (Some (msg_id c))) in *.
  destruct draft as [d|]; [destruct (String.eqb d "")|]; cbn [fst snd ps_history];
    try (split; [exists x1; exact E1|exact N1]).
  destruct (save_email_ids s1 em "outbound" (if String.eqb subj "" then "" else "Re: " ++ subj)
              d sit None N1) as [[x2 [E2 _]] N2].
  split; [|exact N2]. exists (x1 ++ x2)%list. rewrite E2, E1, app_assoc. reflexivity.
Qed.

Lemma poll_loop_ids st latest msgs outcome :
  NoDup (gmail_ids (ps_history st)) ->
  let st' := fst (fst (poll_loop st latest msgs outcome)) in
  extends (ps_history st) (ps_history st') /\ NoDup (gmail_ids (ps_history st')).
Proof.
  revert st latest. induction msgs as [|c msgs IH]; intros st latest Hn st'.
  - split; [exists []; rewrite app_nil_r|]; auto.
  - unfold st'. simpl.
    pose proof (handle_candidate_ids st latest c (outcome (msg_id c)) Hn) as [[x1 E1] N1].
    destruct (handle_candidate st latest c (outcome (msg_id c))) as [[st1 p] latest1] eqn:Eh.
    simpl in E1, N1.
    pose proof (IH st1 latest1 N1) as [[x2 E2] N2].
    destruct (poll_loop st1 latest1 msgs outcome) as [[st2 n] latest2] eqn:El. simpl in *.
    split; [|exact N2]. exists (x1 ++ x2)%list. rewrite E2, E1, app_assoc. reflexivity.
Qed.

(** X14: a [poll_gmail] cycle only appends history rows, and it keeps the recorded Gmail message ids pairwise distinct. *)
Theorem poll_keeps_ids_unique st current msgs outcome :
  NoDup (gmail_ids (ps_history st)) ->
  let st' := fst (poll_gmail st current msgs outcome) in
  extends (ps_history st) (ps_history st') /\ NoDup (gmail_ids (ps_history st')).
Proof.
  intros Hn st'. unfold st', poll_gmail.
  destruct (ps_gmail_state st) as [hid|];
    [|split; [exists []; rewrite app_nil_r|]; auto].
  destruct (String.eqb hid ""); [split; [exists []; rewrite app_nil_r|]; auto|].
  destruct msgs as [|c0 msgs]; [split; [exists []; rewrite app_nil_r|]; auto|].
  pose proof (poll_loop_ids st hid (c0 :: msgs) outcome Hn) as [E N].
  destruct (poll_loop st hid (c0 :: msgs) outcome) as [[st1 p] latest] eqn:El. simpl in *.
  destruct (String.eqb latest hid); simpl; auto.
Qed.

End PollerExtras.

(* ------------------------------------------------------------------ *)
(** ** Email text and Telegram fields *)

Module EmailTextExtras.
Import EmailText.

Lemma count_char_app c s t : count_char c (s ++ t) = (count_char c s + count_char c t)%nat.
Proof. induction s; simpl; [reflexivity|]. rewrite IHs. lia. Qed.

Lemma split_char_none c x : count_char c x = O -> split_char c x = [x].
Proof.
  induction x as [|a x IH]; simpl; [reflexivity|].
  destruct (Ascii.eqb a c); [discriminate|]. simpl. intros H. rewrite IH by exact H.
  reflexivity.
Qed.

Lemma split_char_sep c x y :
  count_char c x = O -> split_char c (x ++ String c y) = x :: split_char c y.
Proof.
  induction x as [|a x IH]; simpl; intros H; [rewrite Ascii.eqb_refl; reflexivity|].
  destruct (Ascii.eqb a c); [discriminate|]. simpl in H. rewrite IH by exact H.
  reflexivity.
Qed.

Lemma starts_with_self p t : starts_with p (p ++ t) = true.
Proof. induction p as [|a p IH]; simpl; [reflexivity|]. rewrite Ascii.eqb_refl. exact IH. Qed.

Lemma lower_app' s t : lower (s ++ t) = (lower s ++ lower t)%string.
Proof. induction s; simpl; [reflexivity|]. rewrite IHs. reflexivity. Qed.

Lemma starts_subject_prefix a p :
  Ascii.eqb "s" (lower_char a) = false ->
  starts_with "subject:" (lower (String a p)) = false.
Proof. intros H. cbn [lower starts_with]. rewrite H. reflexivity. Qed.

Lemma find_subject_skip x rest :
  starts_with "subject:" (lower x) = false -> find_subject (x :: rest) = find_subject rest.
Proof. intros H. cbn [find_subject]. rewrite H. reflexivity. Qed.

Lemma find_subject_line s rest :
  find_subject (("Subject: " ++ s) :: rest) = strip s.
Proof.
  cbn [find_subject]. rewrite lower_app'.
  replace (starts_with "subject:" (lower "Subject: " ++ lower s)) with true
    by (symmetry; exact (starts_with_self "subject:" (" " ++ lower s))).
  reflexivity.
Qed.

(** X15: when the From, Reply-To and Subject values contain no newline, reading the subject back from the text [_format_email_text] builds yields the stripped subject. *)
Theorem email_subject_roundtrip msg :
  count_char nlc (m_from_raw msg) = O ->
  count_char nlc (m_reply_to msg) = O ->
  count_char nlc (m_subject msg) = O ->
  email_subject (_format_email_text msg) = strip (m_subject msg).
Proof.
  intros Hf Hr Hs. unfold email_subject, _format_email_text.
  assert (Hnl : forall a b, (a ++ nl ++ b)%string = (a ++ String nlc b)%string)
    by reflexivity.
  assert (Hrest : split_char nlc (String.concat nl ["Subject: " ++ m_subject msg; "Body: " ++ m_body msg])
                  = ("Subject: " ++ m_subject msg) :: split_char nlc ("Body: " ++ m_body msg)).
  { cbn [String.concat]. rewrite Hnl. apply split_char_sep.
    rewrite count_char_app, Hs. reflexivity. }
  destruct (String.eqb (m_reply_to msg) "").
  - cbn [app]. change (String.concat nl (("From: " ++ m_from_raw msg) :: ?l))
      with (("From: " ++ m_from_raw msg) ++ nl ++ String.concat nl l)%string.
    rewrite Hnl, split_char_sep by (rewrite count_char_app, Hf; reflexivity).
    rewrite find_subject_skip by (apply starts_subject_prefix; reflexivity).
    rewrite Hrest. apply find_subject_line.
  - cbn [app]. change (String.concat nl (("From: " ++ m_from_raw msg) :: ?l))
      with (("From: " ++ m_from_raw msg) ++ nl ++ String.concat nl l)%string.
    rewrite Hnl, split_char_sep by (rewrite count_char_app, Hf; reflexivity).
    rewrite find_subject_skip by (apply starts_subject_prefix; reflexivity).
    change (String.concat nl (("Reply-To: " ++ m_reply_to msg) :: ?l))
      with (("Reply-To: " ++ m_reply_to msg) ++ nl ++ String.concat nl l)%string.
    rewrite Hnl, split_char_sep by (rewrite count_char_app, Hr; reflexivity).
    rewrite find_subject_skip by (apply starts_subject_prefix; reflexivity).
    rewrite Hrest. apply find_subject_line.
Qed.

Lemma replace_char_cons c r a s :
  replace (String c "") r (String a s) =
  if Ascii.eqb c a then (r ++ replace (String c "") r s)%string
  else String a (replace (String c "") r s).
Proof. unfold replace. cbn [replace_from starts_with]. destruct (Ascii.eqb c a); reflexivity. Qed.

Lemma replace_char_count_same c r s :
  count_char c (replace (String c "") r s) = (count_char c s * count_char c r)%nat.
Proof.
  induction s as [|a s IH]; [reflexivity|].
  rewrite replace_char_cons. cbn [count_char].
  destruct (Ascii.eqb_spec c a) as [<-|Hca].
  - rewrite count_char_app, IH, Ascii.eqb_refl. lia.
  - cbn [count_char]. rewrite IH.
    replace (Ascii.eqb a c) with false by (symmetry; apply Ascii.eqb_neq; congruence). lia.
Qed.

Lemma replace_char_count_other c r d s :
  d <> c ->
  count_char d (replace (String c "") r s) =
  (count_char d s + count_char c s * count_char d r)%nat.
Proof.
  intros Hdc. induction s as [|a s IH]; [reflexivity|].
  rewrite replace_char_cons. cbn [count_char].
  destruct (Ascii.eqb_spec c a) as [<-|Hca].
  - rewrite count_char_app, IH, Ascii.eqb_refl.
    replace (Ascii.eqb c d) with false by (symmetry; apply Ascii.eqb_neq; congruence). lia.
  - cbn [count_char]. rewrite IH.
    replace (Ascii.eqb a c) with false by (symmetry; apply Ascii.eqb_neq; congruence). lia.
Qed.

Lemma str_length_app s t : String.length (s ++ t) = (String.length s + String.length t)%nat.
Proof. induction s; simpl; auto. Qed.

Lemma replace_char_length c r s :
  String.length (replace (String c "") r s) =
  (String.length s - count_char c s + count_char c s * String.length r)%nat.
Proof.
  induction s as [|a s IH]; [reflexivity|].
  rewrite replace_char_cons. cbn [count_char String.length].
  assert (count_char c s <= String.length s)%nat.
  { clear. induction s; simpl; [lia|]. destruct (Ascii.eqb a c); lia. }
  destruct (Ascii.eqb_spec c a) as [<-|Hca].
  - rewrite str_length_app, IH, Ascii.eqb_refl. nia.
  - replace (Ascii.eqb a c) with false by (symmetry; apply Ascii.eqb_neq; congruence).
    cbn [String.length]. rewrite IH. lia.
Qed.

Lemma html_escape_counts s :
  count_char "<" (html_escape s) = O /\ count_char ">" (html_escape s) = O /\
  String.length (html_escape s) =
  (String.length s + 3 * (count_char "<" s + count_char ">" s))%nat.
Proof.
  unfold html_escape. split; [|split].
  - rewrite replace_char_count_other by discriminate.
    rewrite replace_char_count_same. simpl. lia.
  - rewrite replace_char_count_same. simpl. lia.
  - rewrite !replace_char_length. rewrite replace_char_count_other by discriminate.
    cbn [String.length count_char]. simpl Ascii.eqb.
    assert (Hle : forall c t, (count_char c t <= String.length t)%nat).
    { intros c t. induction t; simpl; [lia|]. destruct (Ascii.eqb a c); lia. }
    assert (Hle2 : (count_char "<" s + count_char ">" s <= String.length s)%nat).
    { clear. induction s; simpl; [lia|].
      destruct (Ascii.eqb a "<"%char) eqn:E1, (Ascii.eqb a ">"%char) eqn:E2; try lia.
      apply Ascii.eqb_eq in E1, E2. congruence. }
    pose proof (Hle "<"%char s). pose proof (Hle ">"%char s).
    change (count_char ">" "&lt;") with O. change (count_char "<" ">") with O. cbn -[count_char String.length]. lia.
Qed.

(** X16: the HTML escaping of [_send_telegram_result] leaves no '<' or '>' in its output and makes the text 3 characters longer per bracket. *)
Theorem html_escape_no_brackets s :
  count_char "<" (html_escape s) = O /\ count_char ">" (html_escape s) = O /\
  String.length (html_escape s) =
  (String.length s + 3 * (count_char "<" s + count_char ">" s))%nat.
Proof. exact (html_escape_counts s). Qed.

Lemma substring0_length_le m s : (String.length (substring 0 m s) <= m)%nat.
Proof.
  revert s; induction m; intros [|a s]; simpl; try lia. specialize (IHm s). lia.
Qed.

(** X17: the subject, sender and result [_send_telegram_result] puts into the Telegram message contain no '<' or '>', and the result before escaping is at most 3516 characters long. *)
Theorem telegram_fields_safe msg result :
  let '(subj, from_addr, res) := telegram_fields msg result in
  count_char "<" subj = O /\ count_char ">" subj = O /\
  count_char "<" from_addr = O /\ count_char ">" from_addr = O /\
  count_char "<" res = O /\ count_char ">" res = O /\
  (String.length (truncate_result result) <= 3516)%nat.
Proof.
  unfold telegram_fields.
  destruct (html_escape_counts (m_subject msg)) as (A1 & A2 & _).
  destruct (html_escape_counts (m_from msg)) as (B1 & B2 & _).
  destruct (html_escape_counts (truncate_result result)) as (C1 & C2 & _).
  repeat split; auto.
  unfold truncate_result. destruct (Nat.ltb_spec 3500 (String.length result)).
  - rewrite str_length_app. pose proof (substring0_length_le 3500 result).
    cbn [String.length nl]. rewrite str_length_app. simpl String.length. lia.
  - lia.
Qed.

End EmailTextExtras.

(* ------------------------------------------------------------------ *)
(** ** Fetching new messages *)

Module GmailApiExtras.
Import Poller GmailApi GmailApiSpec.

Lemma lower_char_not_I c : Ascii.eqb "I"%char (lower_char c) = false.
Proof. destruct c as [[] [] [] [] [] [] [] []]; reflexivity. Qed.

Lemma starts_with_lower_I pre post t :
  starts_with (pre ++ String "I" post) (lower t) = false.
Proof.
  revert t; induction pre as [|a pre IH]; intros [|b t]; cbn [append lower starts_with]; auto.
  - rewrite lower_char_not_I. reflexivity.
  - destruct (Ascii.eqb a (lower_char b)); auto.
Qed.

Lemma contains_lower_I pre post t :
  contains (pre ++ String "I" post) (lower t) = false.
Proof.
  induction t as [|b t IH].
  - cbn [lower contains]. apply (starts_with_lower_I pre post EmptyString).
  - cbn [lower contains]. rewrite IH, orb_false_r.
    apply (starts_with_lower_I pre post (String b t)).
Qed.

Lemma historyId_never_in_lower s : contains "historyId" (lower s) = false.
Proof. apply (contains_lower_I "history" "d"). Qed.

(** X18: when the first history request raises, [get_new_messages] returns [] if the error text contains '404' and re-raises otherwise; the check for 'historyId' in the lowered text never matches. *)
Theorem get_new_messages_first_error api a f e :
  api None = inl e ->
  get_new_messages api a (S f) = Some (if contains "404" e then inr [] else inl e).
Proof.
  intros H. unfold get_new_messages. cbn [fetch_pages]. rewrite H.
  rewrite historyId_never_in_lower, orb_false_r.
  destruct (contains "404" e); reflexivity.
Qed.

Lemma mem_In x l : mem x l = true <-> In x l.
Proof.
  unfold mem. rewrite existsb_exists. split.
  - intros (y & Hy & E). apply String.eqb_eq in E. subst. exact Hy.
  - intros Hx. exists x. split; [exact Hx | apply String.eqb_refl].
Qed.

Lemma dedup_go_spec seen l :
  NoDup (map msg_id (dedup_go seen l)) /\
  (forall c, In c (dedup_go seen l) -> In c l /\ ~ In (msg_id c) seen) /\
  (forall c, In c l -> In (msg_id c) seen \/ In (msg_id c) (map msg_id (dedup_go seen l))).
Proof.
  revert seen; induction l as [|m l IH]; intros seen; cbn [dedup_go].
  - split; [constructor|]. split; [intros c []|intros c []].
  - destruct (mem (msg_id m) seen) eqn:Hm.
    + destruct (IH seen) as (A & B & C). split; [exact A|]. split.
      * intros c Hc. destruct (B c Hc). split; [right|]; auto.
      * intros c [<-|Hc]; [left; apply mem_In; exact Hm | auto].
    + destruct (IH (msg_id m :: seen)) as (A & B & C).
      assert (Hnm : ~ In (msg_id m) seen) by (intro Hi; apply mem_In in Hi; congruence).
      split; [|split].
      * cbn [map]. constructor; auto. intros Hi. apply in_map_iff in Hi.
        destruct Hi as (c & Ec & Hc). destruct (B c Hc) as [_ Hn]. apply Hn. left; auto.
      * intros c [<-|Hc]; [split; [left|]; auto|].
        destruct (B c Hc) as [H1 H2]. split; [right; auto|]. intro; apply H2; right; auto.
      * intros c [<-|Hc]; [right; left; reflexivity|].
        destruct (C c Hc) as [[E|Hs]|Hd]; [right; left; auto | left; auto | right; right; auto].
Qed.

Lemma page_candidates_from api a tok p c :
  api tok = inr p ->
  In c (page_candidates (match hp_history_id p with Some h => h | None => a end) p) ->
  from_page api a c.
Proof.
  intros Hp Hc. unfold page_candidates in Hc. apply in_flat_map in Hc.
  destruct Hc as (msgs & Hmsgs & Hc). apply in_map_iff in Hc.
  destruct Hc as (m & <- & Hm). apply filter_In in Hm. destruct Hm as [Hm Hl].
  exists tok, p, msgs, m. repeat split; auto.
Qed.

Lemma fetch_pages_from api a fuel tok acc msgs :
  fetch_pages api a fuel tok acc = Some (Pages msgs) ->
  forall c, In c msgs -> In c acc \/ from_page api a c.
Proof.
  revert tok acc; induction fuel as [|f IH]; intros tok acc H c Hc; [discriminate|].
  cbn [fetch_pages] in H. destruct (api tok) as [e|p] eqn:Hapi.
  - destruct (_ || _); discriminate.
  - assert (Hstep : In c (acc ++ page_candidates
                      (match hp_history_id p with Some h => h | None => a end) p)%list ->
                    In c acc \/ from_page api a c).
    { intros Hi. apply in_app_or in Hi. destruct Hi as [Hi|Hi]; [left; auto|].
      right. eapply page_candidates_from; eauto. }
    destruct (hp_next_page_token p) as [t|].
    + destruct (String.eqb t "").
      * injection H as <-. auto.
      * destruct (IH _ _ H c Hc) as [Hi|Hi]; auto.
    + injection H as <-. auto.
Qed.

(** X19: the messages [get_new_messages] returns have distinct ids, and each one comes from a message of some returned page that carries INBOX, lacks SENT and every skipped label, with that page's historyId (or the starting id when the page has none). *)
Theorem get_new_messages_sound api a fuel l :
  get_new_messages api a fuel = Some (inr l) ->
  NoDup (map msg_id l) /\
  forall c, In c l ->
    exists tok p msgs m,
      api tok = inr p /\ In msgs (hp_history p) /\ In m msgs /\
      In "INBOX" (gm_labels m) /\ ~ In "SENT" (gm_labels m) /\
      (forall lab, In lab _SKIP_LABELS -> ~ In lab (gm_labels m)) /\
      msg_id c = gm_id m /\
      history_id c = Some (match hp_history_id p with Some h => h | None => a end).
Proof.
  unfold get_new_messages. intros H.
  destruct (fetch_pages api a fuel None []) as [[msgs| |e]|] eqn:Hf; try discriminate.
  - injection H as <-. unfold dedup. destruct (dedup_go_spec [] msgs) as (A & B & _).
    split; [exact A|]. intros c Hc. destruct (B c Hc) as [Hin _].
    destruct (fetch_pages_from _ _ _ _ _ _ Hf c Hin) as [[]|Hp].
    destruct Hp as (tok & p & ms & m & H1 & H2 & H3 & H4 & H5 & H6).
    exists tok, p, ms, m. unfold primary_inbox in H4.
    apply andb_prop in H4. destruct H4 as [H4 H7]. apply andb_prop in H4. destruct H4 as [H4 H8].
    apply negb_true_iff in H7, H8.
    repeat split; auto.
    + apply mem_In; auto.
    + intros Hi. apply mem_In in Hi. congruence.
    + intros lab Hl Hi. assert (existsb (fun l => mem l _SKIP_LABELS) (gm_labels m) = true).
      { apply existsb_exists. exists lab. split; auto. apply mem_In; auto. }
      congruence.
  - injection H as <-. split; [constructor | intros c []].
Qed.

(** X20: when the pages end normally, [get_new_messages] returns the collected candidates deduplicated, and every collected message id is among the returned ones. *)
Theorem get_new_messages_keeps_all api a fuel msgs :
  fetch_pages api a fuel None [] = Some (Pages msgs) ->
  get_new_messages api a fuel = Some (inr (dedup msgs)) /\
  forall c, In c msgs -> In (msg_id c) (map msg_id (dedup msgs)).
Proof.
  intros H. unfold get_new_messages. rewrite H. split; [reflexivity|].
  intros c Hc. destruct (dedup_go_spec [] msgs) as (_ & _ & C).
  destruct (C c Hc) as [[]|Hi]. exact Hi.
Qed.

End GmailApiExtras.

(* ------------------------------------------------------------------ *)
(** ** Instances of the directory, history, poller and Gmail theorems *)

Module ExtraWitnesses.
Import History Poller Directory DirectoryExtras HistoryExtras PollerIds PollerExtras
       EmailText EmailTextExtras GmailApi GmailApiExtras ExampleData.

Lemma add_client_then_get_witness :
  add_client [alice] " Bob@Shop.com" "Bob" "postpay" "" 0 0 =
    inr (mkClient "bob@shop.com" "Bob" "postpay" "" 0 0,
         [alice; mkClient "bob@shop.com" "Bob" "postpay" "" 0 0]) /\
  get_client [alice; mkClient "bob@shop.com" "Bob" "postpay" "" 0 0] " Bob@Shop.com" =
    Some (mkClient "bob@shop.com" "Bob" "postpay" "" 0 0).
Proof.
  assert (H : add_client [alice] " Bob@Shop.com" "Bob" "postpay" "" 0 0 =
    inr (mkClient "bob@shop.com" "Bob" "postpay" "" 0 0,
         [alice; mkClient "bob@shop.com" "Bob" "postpay" "" 0 0])) by (vm_compute; reflexivity).
  split; [exact H|].
  exact (proj2 (proj2 (add_client_then_get _ _ _ _ _ _ _ _ _ H))).
Defined.

Lemma table_ok_preserved_witness :
  table_ok [alice; bob] /\ table_ok (decrement_discount [alice; bob] "alice@shop.com").
Proof.
  assert (H : table_ok [alice; bob]).
  { split.
    - constructor; [simpl; intros [E|[]]; discriminate E|constructor; [intros []|constructor]].
    - repeat constructor. }
  split; [exact H|].
  exact (proj1 (proj2 (table_ok_preserved _ H)) "alice@shop.com").
Defined.

Lemma update_client_keeps_keys_witness :
  NoDup (map email [alice; bob]) /\
  Forall (fun c => valid_payment_type (payment_type c) = true) [alice; bob] /\
  update_client [alice; bob] "BOB@shop.com" (mkFields (Some "Robert") None None None None) =
    inr (Some (mkClient "bob@shop.com" "Robert" "postpay" "" 0 0),
         [alice; mkClient "bob@shop.com" "Robert" "postpay" "" 0 0]) /\
  NoDup (map email [alice; mkClient "bob@shop.com" "Robert" "postpay" "" 0 0]).
Proof.
  assert (H1 : NoDup (map email [alice; bob])).
  { constructor; [simpl; intros [E|[]]; discriminate E|constructor; [intros []|constructor]]. }
  assert (H2 : Forall (fun c => valid_payment_type (payment_type c) = true) [alice; bob])
    by (repeat constructor).
  assert (H3 : update_client [alice; bob] "BOB@shop.com" (mkFields (Some "Robert") None None None None) =
    inr (Some (mkClient "bob@shop.com" "Robert" "postpay" "" 0 0),
         [alice; mkClient "bob@shop.com" "Robert" "postpay" "" 0 0])) by (vm_compute; reflexivity).
  split; [exact H1|]. split; [exact H2|]. split; [exact H3|].
  exact (proj1 (update_client_keeps_keys _ _ _ _ _ H1 H2 H3)).
Defined.

Lemma update_client_then_get_witness :
  (forall pt, f_payment_type (mkFields None (Some "postpay") None None None) = Some pt ->
              valid_payment_type pt = true) /\
  match get_client [alice; bob] "alice@shop.com" with
  | None => update_client [alice; bob] "alice@shop.com"
              (mkFields None (Some "postpay") None None None) = inr (None, [alice; bob])
  | Some c =>
      exists db', update_client [alice; bob] "alice@shop.com"
                    (mkFields None (Some "postpay") None None None) =
                  inr (Some (apply_fields (mkFields None (Some "postpay") None None None) c), db') /\
        get_client db' "alice@shop.com" =
          Some (apply_fields (mkFields None (Some "postpay") None None None) c) /\
        forall e', norm_email e' <> norm_email "alice@shop.com" ->
          get_client db' e' = get_client [alice; bob] e'
  end.
Proof.
  assert (H : forall pt, f_payment_type (mkFields None (Some "postpay") None None None) = Some pt ->
              valid_payment_type pt = true).
  { intros pt E. injection E as <-. reflexivity. }
  split; [exact H|].
  exact (update_client_then_get [alice; bob] "alice@shop.com" _ H).
Defined.

Lemma delete_client_removes_witness :
  NoDup (map email [alice; bob]) /\
  fst (delete_client [alice; bob] "Bob@shop.com") = true /\
  get_client (snd (delete_client [alice; bob] "Bob@shop.com")) "Bob@shop.com" = None.
Proof.
  assert (H : NoDup (map email [alice; bob])).
  { constructor; [simpl; intros [E|[]]; discriminate E|constructor; [intros []|constructor]]. }
  destruct (delete_client_removes [alice; bob] "Bob@shop.com" H) as (A & B & _).
  split; [exact H|]. split; [|exact B].
  rewrite A. reflexivity.
Defined.

Lemma decrement_uses_up_witness :
  get_client [alice] "alice@shop.com" = Some alice /\
  discount_orders_left alice = Z.of_nat 1 /\
  get_client (Nat.iter 1 (fun d => decrement_discount d "alice@shop.com") [alice])
             "alice@shop.com" =
    Some (mkClient "alice@shop.com" "Alice" "prepay" "pay@zelle.com" 0 0).
Proof.
  assert (H1 : get_client [alice] "alice@shop.com" = Some alice) by (vm_compute; reflexivity).
  assert (H2 : discount_orders_left alice = Z.of_nat 1) by reflexivity.
  split; [exact H1|]. split; [exact H2|].
  exact (proj1 (decrement_uses_up [alice] "alice@shop.com" alice 1 H1 H2)).
Defined.

Lemma get_client_normalizes_witness :
  is_space " "%char = true /\
  get_client [alice] (String " "%char "ALICE@Shop.com") = get_client [alice] "ALICE@Shop.com".
Proof.
  assert (H : is_space " "%char = true) by reflexivity.
  split; [exact H|].
  exact (proj1 (proj2 (get_client_normalizes [alice] "ALICE@Shop.com" " "%char H))).
Defined.

Lemma admin_update_never_clears_witness :
  get_client [alice] "alice@shop.com" = Some alice /\
  (fst (admin_update_client [alice] "alice@shop.com" "" "" "" (-1) (-1)) =
     "No changes specified." <->
   "" = "" /\ "" = "" /\ "" = "" /\ -1 < 0 /\ -1 < 0).
Proof.
  assert (H : get_client [alice] "alice@shop.com" = Some alice) by (vm_compute; reflexivity).
  split; [exact H|].
  exact (proj1 (admin_update_never_clears _ _ _ _ _ _ _ _ H)).
Defined.

Lemma history_only_own_rows_witness :
  In (to_dict (hist 8 "payment_received")) (get_email_history spec_store "c@x.com" 10) /\
  exists row, In row spec_store /\ h_client_email row = norm_email "c@x.com" /\
              to_dict (hist 8 "payment_received") = to_dict row.
Proof.
  assert (H : In (to_dict (hist 8 "payment_received")) (get_email_history spec_store "c@x.com" 10))
    by (vm_compute; repeat (first [left; reflexivity | right])).
  split; [exact H|].
  exact (history_only_own_rows _ _ _ _ H).
Defined.

Lemma history_respects_cap_witness :
  3 <= 5 /\ length (get_email_history spec_store "c@x.com" 5) = 5%nat.
Proof.
  assert (H : 3 <= 5) by lia.
  split; [exact H|].
  rewrite (history_respects_cap spec_store "c@x.com" 5 H). reflexivity.
Defined.

Lemma history_small_cap_exceeded_witness :
  0 < 3 /\ (3 <= length (history_query spec_store "c@x.com"))%nat /\
  Z.of_nat (length (get_email_history spec_store "c@x.com" 0)) = 5.
Proof.
  assert (H1 : 0 < 3) by lia.
  assert (H2 : (3 <= length (history_query spec_store "c@x.com"))%nat)
    by (vm_compute; repeat constructor).
  split; [exact H1|]. split; [exact H2|].
  rewrite (history_small_cap_exceeded spec_store "c@x.com" 0 H1 H2). vm_compute. reflexivity.
Defined.

Lemma saved_email_in_history_witness :
  (forall r, In r [seen_row] -> h_created_at r <= Z.of_nat (length [seen_row])) /\
  email_already_processed [seen_row] "m2" = false /\
  In (to_dict (mkHist 2 "c@x.com" "inbound" "Hi" "text" "new_order" (Some "m2") 2))
     (get_email_history (save_email [seen_row] "C@x.com" "inbound" "Hi" "text" "new_order"
                           (Some "m2")) "c@x.com" 10).
Proof.
  assert (H1 : forall r, In r [seen_row] -> h_created_at r <= Z.of_nat (length [seen_row])).
  { intros r [<-|[]]. simpl. lia. }
  assert (H2 : email_already_processed [seen_row] "m2" = false) by reflexivity.
  split; [exact H1|]. split; [exact H2|].
  exact (proj1 (proj2 (saved_email_in_history [seen_row] "C@x.com" "inbound" "Hi" "text"
                         "new_order" (Some "m2") 10 H1 H2))).
Defined.

Lemma poll_keeps_ids_unique_witness :
  NoDup (gmail_ids (ps_history cursor_state)) /\
  NoDup (gmail_ids (ps_history (fst (poll_gmail cursor_state "9"
           [mkCandidate "m1" (Some "5"); mkCandidate "m2" (Some "6"); mkCandidate "m2" (Some "7")]
           (fun _ => PipelineSaves "c@x.com" "Hi" "new_order" "text" (Some "draft")))))).
Proof.
  assert (H : NoDup (gmail_ids (ps_history cursor_state))).
  { constructor; [intros []|constructor]. }
  split; [exact H|].
  exact (proj2 (poll_keeps_ids_unique cursor_state "9" _ _ H)).
Defined.

Lemma email_subject_roundtrip_witness :
  count_char nlc (m_from_raw (mkMessage "a@b.com" "Ann <a@b.com>" "r@b.com" "  Order 7 " "x")) = O /\
  count_char nlc (m_reply_to (mkMessage "a@b.com" "Ann <a@b.com>" "r@b.com" "  Order 7 " "x")) = O /\
  count_char nlc (m_subject (mkMessage "a@b.com" "Ann <a@b.com>" "r@b.com" "  Order 7 " "x")) = O /\
  email_subject (_format_email_text (mkMessage "a@b.com" "Ann <a@b.com>" "r@b.com" "  Order 7 " "x"))
    = "Order 7".
Proof.
  assert (H1 : count_char nlc (m_from_raw (mkMessage "a@b.com" "Ann <a@b.com>" "r@b.com" "  Order 7 " "x")) = O)
    by reflexivity.
  assert (H2 : count_char nlc (m_reply_to (mkMessage "a@b.com" "Ann <a@b.com>" "r@b.com" "  Order 7 " "x")) = O)
    by reflexivity.
  assert (H3 : count_char nlc (m_subject (mkMessage "a@b.com" "Ann <a@b.com>" "r@b.com" "  Order 7 " "x")) = O)
    by reflexivity.
  split; [exact H1|]. split; [exact H2|]. split; [exact H3|].
  rewrite (email_subject_roundtrip _ H1 H2 H3). vm_compute. reflexivity.
Defined.

Lemma get_new_messages_first_error_witness :
  (fun _ : option string => inl "Invalid historyId" : string + HistPage) None
    = inl "Invalid historyId" /\
  get_new_messages (fun _ => inl "Invalid historyId") "5" 3 = Some (inl "Invalid historyId").
Proof.
  assert (H : (fun _ : option string => inl "Invalid historyId" : string + HistPage) None
              = inl "Invalid historyId") by reflexivity.
  split; [exact H|].
  rewrite (get_new_messages_first_error _ "5" 2 _ H). reflexivity.
Defined.

Lemma get_new_messages_sound_witness :
  get_new_messages
    (fun tok => match tok with
                | None => inr (mkPage (Some "7")
                                [[mkGMsg "m1" ["INBOX"]; mkGMsg "m1" ["INBOX"]];
                                 [mkGMsg "m2" ["INBOX"; "SENT"]]; [mkGMsg "m4" ["INBOX"; "SPAM"]]]
                                (Some "t"))
                | Some _ => inr (mkPage None [[mkGMsg "m3" ["INBOX"]]] None)
                end) "5" 3 =
    Some (inr [mkCandidate "m1" (Some "7"); mkCandidate "m3" (Some "5")]) /\
  NoDup (map msg_id [mkCandidate "m1" (Some "7"); mkCandidate "m3" (Some "5")]).
Proof.
  assert (H : get_new_messages
    (fun tok => match tok with
                | None => inr (mkPage (Some "7")
                                [[mkGMsg "m1" ["INBOX"]; mkGMsg "m1" ["INBOX"]];
                                 [mkGMsg "m2" ["INBOX"; "SENT"]]; [mkGMsg "m4" ["INBOX"; "SPAM"]]]
                                (Some "t"))
                | Some _ => inr (mkPage None [[mkGMsg "m3" ["INBOX"]]] None)
                end) "5" 3 =
    Some (inr [mkCandidate "m1" (Some "7"); mkCandidate "m3" (Some "5")])) by (vm_compute; reflexivity).
  split; [exact H|].
  exact (proj1 (get_new_messages_sound _ _ _ _ H)).
Defined.

Lemma get_new_messages_keeps_all_witness :
  fetch_pages
    (fun tok => match tok with
                | None => inr (mkPage (Some "7") [[mkGMsg "m1" ["INBOX"]; mkGMsg "m1" ["INBOX"]]]
                                (Some "t"))
                | Some _ => inr (mkPage None [[mkGMsg "m3" ["INBOX"]]] None)
                end) "5" 3 None [] =
    Some (Pages [mkCandidate "m1" (Some "7"); mkCandidate "m1" (Some "7");
                 mkCandidate "m3" (Some "5")]) /\
  In "m3" (map msg_id (dedup [mkCandidate "m1" (Some "7"); mkCandidate "m1" (Some "7");
                              mkCandidate "m3" (Some "5")])).
Proof.
  assert (H : fetch_pages
    (fun tok => match tok with
                | None => inr (mkPage (Some "7") [[mkGMsg "m1" ["INBOX"]; mkGMsg "m1" ["INBOX"]]]
                                (Some "t"))
                | Some _ => inr (mkPage None [[mkGMsg "m3" ["INBOX"]]] None)
                end) "5" 3 None [] =
    Some (Pages [mkCandidate "m1" (Some "7"); mkCandidate "m1" (Some "7");
                 mkCandidate "m3" (Some "5")])) by (vm_compute; reflexivity).
  split; [exact H|].
  exact (proj2 (get_new_messages_keeps_all _ _ _ _ H) (mkCandidate "m3" (Some "5"))
           (or_intror (or_intror (or_introl eq_refl)))).
Defined.

End ExtraWitnesses.
